(** * hiralyze: the resume / job match scoring engine

    A shallow embedding of [ai-service/services/job_matcher.py] (class
    [JobMatcher]) and the properties of its scoring pipeline.

    Modelling conventions.
    - Python [str] is [string]; the text primitives ([lower], [strip],
      [in], the character classes of [re]) are given for ASCII text.
    - Python [int] is [Z] or [N]; Python [float] is idealised as an exact
      rational [Q], so [/] is exact and [round] is round-half-to-even on
      rationals.  Equalities between scores are therefore stated with
      [==] ([Qeq]).
    - A [dict] with a fixed set of keys read through [.get(key, default)]
      is a record whose field holds the default when the key is missing;
      a key that some return path leaves out is an [option] field.
    - A raised exception is the left injection of a sum; [try/except] is
      a [match] on it.
    - [self.vectorizer] is one object shared by every call; its fitted
      attribute is threaded through the calls explicitly.  The numeric
      work of scikit-learn (tokenising, TF-IDF weighting, cosine) is a
      parameter of the development. *)

From stdpp Require Import gmap strings list.
From Stdlib Require Import QArith Qround Qminmax Lqa ZArith Lia Ascii.

Local Open Scope string_scope.
Local Open Scope list_scope.

(** ** Python text primitives *)

Module Py.

Definition code (c : ascii) : N := N_of_ascii c.

Definition between (lo hi : N) (c : ascii) : bool :=
  ((lo <=? code c) && (code c <=? hi))%N.

(** [str.lower] on one character. *)
Definition lower_char (c : ascii) : ascii :=
  if between 65 90 c then ascii_of_N (code c + 32) else c.

Fixpoint lower (s : string) : string :=
  match s with
  | EmptyString => EmptyString
  | String c s' => String (lower_char c) (lower s')
  end.

(** Whitespace as [str.strip] and the class [\s] see it: tab, newline,
    vertical tab, form feed, carriage return, the four separators
    0x1c..0x1f and the space. *)
Definition is_space (c : ascii) : bool :=
  between 9 13 c || between 28 32 c.

(** The class [\d]. *)
Definition is_digit (c : ascii) : bool := between 48 57 c.

Fixpoint lstrip (s : string) : string :=
  match s with
  | String c s' => if is_space c then lstrip s' else s
  | EmptyString => EmptyString
  end.

Fixpoint rstrip (s : string) : string :=
  match s with
  | EmptyString => EmptyString
  | String c s' =>
      match rstrip s' with
      | EmptyString => if is_space c then EmptyString else String c EmptyString
      | r => String c r
      end
  end.

Definition strip (s : string) : string := rstrip (lstrip s).

(** [sub in s] for strings. *)
Fixpoint contains (sub s : string) : bool :=
  String.prefix sub s ||
  match s with
  | EmptyString => false
  | String _ s' => contains sub s'
  end.

(** [x in l] for a list of strings. *)
Definition mem (x : string) (l : list string) : bool :=
  existsb (String.eqb x) l.

(** [any(k in s for k in keys)]. *)
Definition any_in (keys : list string) (s : string) : bool :=
  existsb (fun k => contains k s) keys.

(** [sep.join(l)]. *)
Definition join (sep : string) (l : list string) : string :=
  String.concat sep l.

(** Truthiness of a string and of a list. *)
Definition nonempty (s : string) : bool :=
  match s with EmptyString => false | _ => true end.

Definition truthy {A} (l : list A) : bool :=
  match l with [] => false | _ => true end.

(** [int(s)] for a run of decimal digits. *)
Fixpoint int_digits (acc : N) (s : string) : N :=
  match s with
  | EmptyString => acc
  | String c s' => int_digits (acc * 10 + (code c - 48)) s'
  end.

Definition int (s : string) : N := int_digits 0 s.

(** [round(x)]: the nearest integer, a tie going to the even one. *)
Definition round (x : Q) : Z :=
  let f := Qfloor x in
  match Qcompare (x - inject_Z f) (1 # 2) with
  | Lt => f
  | Gt => (f + 1)%Z
  | Eq => if Z.even f then f else (f + 1)%Z
  end.

End Py.

(** ** The fragment of [re] the matcher uses

    Greedy, backtracking, leftmost: what [re.search] does on patterns
    built from literals, [c*] and [c+] over a character class, an
    optional group and one capture group. *)

Module Re.

Inductive regex : Type :=
| Lit (s : string)
| Star (cls : ascii -> bool)
| Plus (cls : ascii -> bool)
| Opt (r : regex)
| Cat (r1 r2 : regex)
| Group (r : regex).

Section Matcher.
Context {R : Type}.

(** [cls*] followed by [k]: the longest run first, then shorter ones. *)
Fixpoint star (cls : ascii -> bool) (s : string) (k : string -> option R)
  : option R :=
  match s with
  | String c s' =>
      if cls c then
        match star cls s' k with
        | Some r => Some r
        | None => k s
        end
      else k s
  | EmptyString => k s
  end.

(** [rmatch r s cap k]: match [r] at the head of [s], then run [k] on
    the rest of the text and the text of the capture group. *)
Fixpoint rmatch (r : regex) (s : string) (cap : option string)
    (k : string -> option string -> option R) : option R :=
  match r with
  | Lit l =>
      if String.prefix l s
      then k (String.substring (String.length l) (String.length s - String.length l) s) cap
      else None
  | Star cls => star cls s (fun rest => k rest cap)
  | Plus cls =>
      match s with
      | String c s' => if cls c then star cls s' (fun rest => k rest cap) else None
      | EmptyString => None
      end
  | Opt r' =>
      match rmatch r' s cap k with
      | Some x => Some x
      | None => k s cap
      end
  | Cat r1 r2 => rmatch r1 s cap (fun rest cap' => rmatch r2 rest cap' k)
  | Group r' =>
      rmatch r' s cap
        (fun rest _ =>
           k rest (Some (String.substring 0 (String.length s - String.length rest) s)))
  end.
End Matcher.

(** [re.search(r, s)]: the first start position at which [r] matches;
    the result is [match.group(1)]. *)
Fixpoint search (r : regex) (s : string) : option (option string) :=
  match rmatch r s None (fun _ cap => Some cap) with
  | Some cap => Some cap
  | None =>
      match s with
      | EmptyString => None
      | String _ s' => search r s'
      end
  end.

Definition seq (l : list regex) : regex := fold_right Cat (Lit "") l.

End Re.

Import Py.

(** ** Data model *)

(** One element of [resume_data['experience']]. *)
Record ExperienceEntry : Type := {
  exp_company : string;
  exp_position : string;
  exp_description : string;
  exp_duration : Q
}.

(** One element of [resume_data['education']]. *)
Record EducationEntry : Type := {
  edu_degree : string;
  edu_field : string;
  edu_institution : string
}.

Record ResumeData : Type := {
  resume_skills : list string;
  resume_experience : list ExperienceEntry;
  resume_education : list EducationEntry;
  resume_summary : string
}.

Record JobData : Type := {
  job_title : string;
  job_company : string;
  job_description : string;
  job_requirements : list string;
  job_skills : list string
}.

Inductive exn : Type :=
| ZeroDivisionError.

Inductive Recommendation : Type :=
| highly_recommended
| recommended
| maybe
| not_recommended.

(** The dictionary the skills matcher returns; the early return has no
    ['match_ratio'] key. *)
Module SkillsMatch.
Record t : Type := {
  score : Q;
  matching_skills : list string;
  missing_skills : list string;
  match_ratio : option Q
}.
End SkillsMatch.

(** The text of ['gap_analysis'], kept structured: the number in
    ["Need 1.0 more years of experience"] is the exact difference. *)
Inductive GapItem : Type :=
| NeedYears (gap_years : Q)
| LevelGap (resume_level required_level : string).

Inductive GapText : Type :=
| GapBlank                      (* '' *)
| GapNoData                     (* 'No experience data available' *)
| GapFullyMet                   (* 'Experience requirements fully met' *)
| GapJoined (gaps : list GapItem)   (* '; '.join(gaps) *)
| GapMet.                       (* 'Experience requirements met' *)

Module ExperienceMatch.
Record t : Type := {
  score : Z;
  total_years : option Q;
  required_years : option N;
  level_match : option bool;
  gap_analysis : GapText
}.
End ExperienceMatch.

Module EducationMatch.
Record t : Type := {
  score : Z;
  highest_degree : option string;
  required_degree : option string;
  analysis : string
}.
End EducationMatch.

(** The text of the semantic ['analysis']; the early return has none. *)
Inductive SemanticAnalysis : Type :=
| NoAnalysis
| SimilarityText (similarity : Q)   (* f"Semantic similarity: {similarity:.2f}" *)
| UnableToCalculate.                (* 'Unable to calculate semantic similarity' *)

Module SemanticMatch.
Record t : Type := {
  score : Z;
  similarity : Q;
  analysis : SemanticAnalysis
}.
End SemanticMatch.

Record Breakdown : Type := {
  skills_match : SkillsMatch.t;
  experience_match : ExperienceMatch.t;
  education_match : EducationMatch.t;
  semantic_match : SemanticMatch.t
}.

(** The dictionary [calculate_match] returns; [breakdown = None] is the
    empty dictionary of the fallback. *)
Record MatchResult : Type := {
  score : Z;
  recommendation : Recommendation;
  breakdown : option Breakdown;
  matching_skills : list string;
  missing_skills : list string;
  experience_gap : GapText;
  recommendations : list string
}.

(** [d.get(key, default)] on a dictionary given by its items. *)
Fixpoint dict_get {V} (d : list (string * V)) (key : string) (default : V) : V :=
  match d with
  | [] => default
  | (k, v) :: d' => if String.eqb key k then v else dict_get d' key default
  end.

Definition Qlen {A} (l : list A) : Q := inject_Z (Z.of_nat (length l)).

(** ** SkillMatcher *)

Local Open Scope Q_scope.

Definition synonyms : list (string * list string) :=
  [ ("javascript", ["js"; "node.js"; "nodejs"]);
    ("python", ["py"]);
    ("react", ["reactjs"; "react.js"]);
    ("angular", ["angularjs"]);
    ("vue", ["vuejs"; "vue.js"]);
    ("aws", ["amazon web services"]);
    ("gcp", ["google cloud platform"]);
    ("azure", ["microsoft azure"]);
    ("docker", ["containerization"]);
    ("kubernetes", ["k8s"]);
    ("postgresql", ["postgres"]);
    ("mongodb", ["mongo"]) ].

Definition _are_similar_skills (skill1 skill2 : string) : bool :=
  existsb
    (fun '(main_skill, skill_synonyms) =>
       (String.eqb skill1 main_skill && mem skill2 skill_synonyms)
       || (String.eqb skill2 main_skill && mem skill1 skill_synonyms)
       || (mem skill1 skill_synonyms && mem skill2 skill_synonyms))
    synonyms.

(** The [if / elif / elif] of the loop body of [_apply_skill_weights]:
    what one matching skill adds. *)
Definition skill_bonus (skill : string) : Q :=
  let skill_lower := lower skill in
  if any_in ["python"; "java"; "javascript"; "c++"; "c#"] skill_lower then 5
  else if any_in ["react"; "angular"; "vue"; "django"; "spring"] skill_lower then 3
  else if any_in ["aws"; "azure"; "gcp"; "docker"; "kubernetes"] skill_lower then 4
  else 0.

Definition _apply_skill_weights (matching_skills : list string) (base_score : Q) : Q :=
  if negb (truthy matching_skills) then base_score
  else
    let weighted_score :=
      fold_left (fun w skill => w + skill_bonus skill) matching_skills base_score in
    Qmin 100 weighted_score.

(** The test the loop of [_calculate_skills_match] makes on one
    requirement: an exact match, else a partial match with some resume
    skill. *)
Definition requirement_matches (resume_skills_lower : list string)
    (requirement : string) : bool :=
  let requirement_lower := strip (lower requirement) in
  if mem requirement_lower resume_skills_lower then true
  else
    existsb
      (fun resume_skill =>
         contains requirement_lower resume_skill
         || contains resume_skill requirement_lower
         || _are_similar_skills requirement_lower resume_skill)
      resume_skills_lower.

(** The loop itself: the two lists it appends to, in order. *)
Fixpoint classify_requirements (resume_skills_lower job_requirements : list string)
  : list string * list string :=
  match job_requirements with
  | [] => ([], [])
  | requirement :: rest =>
      let '(matching, missing) := classify_requirements resume_skills_lower rest in
      if requirement_matches resume_skills_lower requirement
      then (requirement :: matching, missing)
      else (matching, requirement :: missing)
  end.

Definition _calculate_skills_match (resume_skills job_requirements : list string)
  : SkillsMatch.t :=
  if negb (truthy resume_skills) || negb (truthy job_requirements) then
    {| SkillsMatch.score := 0;
       SkillsMatch.matching_skills := [];
       SkillsMatch.missing_skills := job_requirements;
       SkillsMatch.match_ratio := None |}
  else
    let resume_skills_lower := map (fun skill => strip (lower skill)) resume_skills in
    let '(matching_skills, missing_skills) :=
      classify_requirements resume_skills_lower job_requirements in
    let base_score :=
      if truthy job_requirements
      then Qlen matching_skills / Qlen job_requirements * 100
      else 50 in
    let weighted_score := _apply_skill_weights matching_skills base_score in
    {| SkillsMatch.score := Qmin 100 weighted_score;
       SkillsMatch.matching_skills := matching_skills;
       SkillsMatch.missing_skills := missing_skills;
       SkillsMatch.match_ratio :=
         Some (if truthy job_requirements
               then Qlen matching_skills / Qlen job_requirements
               else 0) |}.

(** ** ExperienceMatcher *)

Definition experience_levels : list (string * Z) :=
  [ ("entry", 0%Z); ("junior", 1%Z); ("mid", 2%Z); ("senior", 3%Z);
    ("lead", 4%Z); ("principal", 5%Z); ("executive", 6%Z) ].

(** The four patterns of [_extract_required_experience], in order.
    With D the group of one or more digits, W any run of whitespace
    and a question mark for an optional part:
    - D, "+"?, W, "year", "s"?, W, ("of" W)?, "experience";
    - D, "+"?, W, "year", "s"?, W, ("of" W)?, ("relevant" W)?, "experience";
    - "minimum", W, ("of" W)?, D, W, "year", "s"?;
    - "at", W, "least", W, D, W, "year", "s"?. *)
Definition patterns : list Re.regex :=
  let d := Re.Group (Re.Plus is_digit) in
  let ws := Re.Star is_space in
  let years := Re.Cat (Re.Lit "year") (Re.Opt (Re.Lit "s")) in
  let of_ := Re.Opt (Re.Cat (Re.Lit "of") ws) in
  [ Re.seq [d; Re.Opt (Re.Lit "+"); ws; years; ws; of_; Re.Lit "experience"];
    Re.seq [d; Re.Opt (Re.Lit "+"); ws; years; ws; of_;
            Re.Opt (Re.Cat (Re.Lit "relevant") ws); Re.Lit "experience"];
    Re.seq [Re.Lit "minimum"; ws; of_; d; ws; years];
    Re.seq [Re.Lit "at"; ws; Re.Lit "least"; ws; d; ws; years] ].

(** The [for pattern in patterns] loop: the first pattern that matches
    decides.  Group 1 takes part in every match of these patterns. *)
Fixpoint first_pattern (ps : list Re.regex) (text : string) : option N :=
  match ps with
  | [] => None
  | pattern :: ps' =>
      match Re.search pattern text with
      | Some group1 => Some (int (default "" group1))
      | None => first_pattern ps' text
      end
  end.

Definition _extract_required_experience (job_title job_description : string) : N :=
  let text := lower (job_title +:+ " " +:+ job_description) in
  match first_pattern patterns text with
  | Some n => n
  | None =>
      if any_in ["senior"; "lead"; "principal"] job_title then 5%N
      else if any_in ["mid"; "intermediate"] job_title then 3%N
      else if any_in ["junior"; "entry"] job_title then 1%N
      else 2%N
  end.

Definition Qltb (x y : Q) : bool := negb (Qle_bool y x).

Definition _determine_experience_level (years : Q) : string :=
  if Qltb years 1 then "entry"
  else if Qltb years 3 then "junior"
  else if Qltb years 6 then "mid"
  else if Qltb years 10 then "senior"
  else "executive".

Definition _extract_required_level (job_title job_description : string) : string :=
  let text := lower (job_title +:+ " " +:+ job_description) in
  if any_in ["senior"; "sr."; "lead"; "principal"] text then "senior"
  else if any_in ["junior"; "jr."; "entry"; "graduate"] text then "junior"
  else if any_in ["mid"; "intermediate"] text then "mid"
  else "mid".

Definition _calculate_level_alignment (resume_level required_level : string) : Q :=
  let resume_num := dict_get experience_levels resume_level 2%Z in
  let required_num := dict_get experience_levels required_level 2%Z in
  if (resume_num =? required_num)%Z then 100
  else if (Z.abs (resume_num - required_num) =? 1)%Z then 80
  else if (Z.abs (resume_num - required_num) =? 2)%Z then 60
  else 40.

Definition industries : list (string * list string) :=
  [ ("fintech", ["finance"; "banking"; "fintech"; "payment"; "trading"]);
    ("healthcare", ["healthcare"; "medical"; "hospital"; "pharma"]);
    ("ecommerce", ["ecommerce"; "retail"; "shopping"; "marketplace"]);
    ("saas", ["saas"; "software"; "platform"; "cloud"]);
    ("gaming", ["gaming"; "game"; "entertainment"]);
    ("education", ["education"; "learning"; "university"; "school"]) ].

Definition _extract_industry_keywords (text : string) : list string :=
  map fst (List.filter (fun '(industry, keywords) => any_in keywords text) industries).

Definition _calculate_domain_match (resume_experience : list ExperienceEntry)
    (job_data : JobData) : Q :=
  let job_company := lower (job_company job_data) in
  let job_description := lower (job_description job_data) in
  let job_industries :=
    _extract_industry_keywords (job_company +:+ " " +:+ job_description) in
  let resume_industries :=
    flat_map
      (fun exp =>
         let company := lower (exp_company exp) in
         let description := lower (exp_description exp) in
         _extract_industry_keywords (company +:+ " " +:+ description))
      resume_experience in
  if negb (truthy job_industries) then 70
  else if existsb (fun i => mem i resume_industries) job_industries then 100
  else 50.

Definition _generate_experience_gap_analysis (total_years : Q) (required_years : N)
    (resume_level required_level : string) : GapText :=
  let required := inject_Z (Z.of_N required_years) in
  if Qle_bool required total_years && String.eqb resume_level required_level
  then GapFullyMet
  else
    let gaps :=
      (if Qltb total_years required then [NeedYears (required - total_years)] else [])
      ++ (if negb (String.eqb resume_level required_level)
          then [LevelGap resume_level required_level] else []) in
    if truthy gaps then GapJoined gaps else GapMet.

(** The [if / elif / elif / else] that sets [years_score]; the last
    branch divides by [required_years]. *)
Definition years_score (total_years : Q) (required_years : N) : exn + Q :=
  let required := inject_Z (Z.of_N required_years) in
  if Qle_bool required total_years then inr 100
  else if Qle_bool (required * 0.8) total_years then inr 80
  else if Qle_bool (required * 0.6) total_years then inr 60
  else if (required_years =? 0)%N then inl ZeroDivisionError
  else inr (Qmax 20 (total_years / required * 60)).

Definition _calculate_experience_match (resume_experience : list ExperienceEntry)
    (job_data : JobData) : exn + ExperienceMatch.t :=
  if negb (truthy resume_experience) then
    inr {| ExperienceMatch.score := 0;
           ExperienceMatch.total_years := None;
           ExperienceMatch.required_years := None;
           ExperienceMatch.level_match := None;
           ExperienceMatch.gap_analysis := GapNoData |}
  else
    let total_years := fold_left Qplus (map exp_duration resume_experience) 0 in
    let job_title := lower (job_title job_data) in
    let job_description := lower (job_description job_data) in
    let required_years := _extract_required_experience job_title job_description in
    let resume_level := _determine_experience_level total_years in
    let required_level := _extract_required_level job_title job_description in
    match years_score total_years required_years with
    | inl e => inl e
    | inr years_score =>
        let level_score := _calculate_level_alignment resume_level required_level in
        let domain_score := _calculate_domain_match resume_experience job_data in
        let final_score := years_score * 0.5 + level_score * 0.3 + domain_score * 0.2 in
        let gap_analysis :=
          _generate_experience_gap_analysis
            total_years required_years resume_level required_level in
        inr {| ExperienceMatch.score := round final_score;
               ExperienceMatch.total_years := Some total_years;
               ExperienceMatch.required_years := Some required_years;
               ExperienceMatch.level_match := Some (String.eqb resume_level required_level);
               ExperienceMatch.gap_analysis := gap_analysis |}
    end.

(** ** EducationMatcher *)

Definition degree_hierarchy : list string :=
  ["phd"; "master"; "bachelor"; "associate"; "high_school"].

(** The inner loop of [_get_highest_degree] for one [degree_level]. *)
Definition degree_found (degree_level : string) (education : list EducationEntry) : bool :=
  existsb
    (fun edu =>
       let degree := lower (edu_degree edu) in
       contains degree_level degree
       || (String.eqb degree_level "phd" && contains "doctorate" degree))
    education.

Fixpoint first_degree (levels : list string) (education : list EducationEntry) : string :=
  match levels with
  | [] => "bachelor"
  | degree_level :: levels' =>
      if degree_found degree_level education then degree_level
      else first_degree levels' education
  end.

Definition _get_highest_degree (education : list EducationEntry) : string :=
  first_degree degree_hierarchy education.

Definition _extract_required_degree (job_description : string)
    (job_requirements : list string) : string :=
  let text := lower (job_description +:+ " " +:+ join " " job_requirements) in
  if contains "phd" text || contains "doctorate" text then "phd"
  else if contains "master" text || contains "mba" text then "master"
  else if contains "bachelor" text || contains "degree" text then "bachelor"
  else "bachelor".

Definition degree_scores : list (string * Z) :=
  [ ("high_school", 20%Z); ("associate", 40%Z); ("bachelor", 70%Z);
    ("master", 90%Z); ("phd", 100%Z) ].

Definition degree_keywords : list string :=
  ["degree"; "bachelor"; "master"; "phd"; "education"].

Definition requires_degree (job_description : string) (job_requirements : list string)
  : bool :=
  existsb
    (fun keyword =>
       contains keyword job_description
       || existsb (fun req => contains keyword (lower req)) job_requirements)
    degree_keywords.

Definition _calculate_education_match (resume_education : list EducationEntry)
    (job_data : JobData) : EducationMatch.t :=
  if negb (truthy resume_education) then
    {| EducationMatch.score := 50;
       EducationMatch.highest_degree := None;
       EducationMatch.required_degree := None;
       EducationMatch.analysis := "No education data available" |}
  else
    let job_description := lower (job_description job_data) in
    let job_requirements := job_requirements job_data in
    if negb (requires_degree job_description job_requirements) then
      {| EducationMatch.score := 100;
         EducationMatch.highest_degree := None;
         EducationMatch.required_degree := None;
         EducationMatch.analysis := "No specific education requirements" |}
    else
      let highest_degree := _get_highest_degree resume_education in
      let required_degree := _extract_required_degree job_description job_requirements in
      let resume_score := inject_Z (dict_get degree_scores highest_degree 50%Z) in
      let required_score := inject_Z (dict_get degree_scores required_degree 70%Z) in
      let final_score :=
        if Qle_bool required_score resume_score then 100
        else Qmax 50 (resume_score / required_score * 100) in
      {| EducationMatch.score := round final_score;
         EducationMatch.highest_degree := Some highest_degree;
         EducationMatch.required_degree := Some required_degree;
         EducationMatch.analysis :=
           "Has " +:+ highest_degree +:+ ", requires " +:+ required_degree |}.

(** ** SemanticSimilarityMatcher *)

Definition _prepare_resume_text (resume_data : ResumeData) : string :=
  let skills := resume_skills resume_data in
  let text_parts :=
    (if truthy skills then [join " " skills] else [])
    ++ flat_map
         (fun exp =>
            (if nonempty (exp_description exp) then [exp_description exp] else [])
            ++ (if nonempty (exp_position exp) then [exp_position exp] else []))
         (resume_experience resume_data)
    ++ flat_map
         (fun edu =>
            (if nonempty (edu_field edu) then [edu_field edu] else [])
            ++ (if nonempty (edu_degree edu) then [edu_degree edu] else []))
         (resume_education resume_data)
    ++ (if nonempty (resume_summary resume_data) then [resume_summary resume_data] else []) in
  join " " text_parts.

Definition _prepare_job_text (job_data : JobData) : string :=
  let text_parts :=
    (if nonempty (job_title job_data) then [job_title job_data] else [])
    ++ (if nonempty (job_description job_data) then [job_description job_data] else [])
    ++ job_requirements job_data
    ++ job_skills job_data in
  join " " text_parts.

(** The one [TfidfVectorizer] built in [__init__] and kept in
    [self.vectorizer]: its fitted attribute, [None] until the first fit. *)
Record TfidfVectorizer : Type := {
  vocabulary_ : option (list string)
}.

Definition unfitted : TfidfVectorizer := {| vocabulary_ := None |}.

Section Matching.

(** scikit-learn's part, on the documents [[resume_text; job_text]]:
    the vocabulary [fit_transform] learns from them and the cosine of
    the two rows, or [None] when the fit raises (no term is left). *)
Variable tfidf : string -> string -> option (list string * Q).

(** [self.vectorizer.fit_transform(documents)] followed by
    [cosine_similarity]: a successful fit replaces the vocabulary of the
    shared vectorizer; a fit that raises leaves it as it was. *)
Definition fit_transform_cosine (vectorizer : TfidfVectorizer)
    (resume_text job_text : string) : option Q * TfidfVectorizer :=
  match tfidf resume_text job_text with
  | Some (vocabulary, similarity) =>
      (Some similarity, {| vocabulary_ := Some vocabulary |})
  | None => (None, vectorizer)
  end.

(** The fallback of the [except] branch. *)
Definition semantic_fallback : SemanticMatch.t :=
  {| SemanticMatch.score := 50;
     SemanticMatch.similarity := 0.5;
     SemanticMatch.analysis := UnableToCalculate |}.

Definition _calculate_semantic_match (vectorizer : TfidfVectorizer)
    (resume_data : ResumeData) (job_data : JobData)
  : SemanticMatch.t * TfidfVectorizer :=
  let resume_text := _prepare_resume_text resume_data in
  let job_text := _prepare_job_text job_data in
  if negb (nonempty resume_text) || negb (nonempty job_text) then
    ({| SemanticMatch.score := 50;
        SemanticMatch.similarity := 0.5;
        SemanticMatch.analysis := NoAnalysis |}, vectorizer)
  else
    match fit_transform_cosine vectorizer resume_text job_text with
    | (Some similarity, vectorizer') =>
        let score := similarity * 100 in
        ({| SemanticMatch.score := round score;
            SemanticMatch.similarity := similarity;
            SemanticMatch.analysis := SimilarityText similarity |}, vectorizer')
    | (None, vectorizer') => (semantic_fallback, vectorizer')
    end.

(** ** MatchAggregator *)

Definition _get_recommendation (final_score : Q) (skills_match : SkillsMatch.t)
    (experience_match : ExperienceMatch.t) : Recommendation :=
  if Qle_bool 85 final_score then highly_recommended
  else if Qle_bool 70 final_score then recommended
  else if Qle_bool 50 final_score then maybe
  else not_recommended.

Definition _generate_recommendations (skills_match : SkillsMatch.t)
    (experience_match : ExperienceMatch.t) : list string :=
  let missing_skills := SkillsMatch.missing_skills skills_match in
  (if truthy missing_skills
   then ["Consider developing skills in: " +:+ join ", " (take 3 missing_skills)]
   else [])
  ++ (if (ExperienceMatch.score experience_match <? 70)%Z
      then ["Gain more relevant work experience in the field"] else [])
  ++ (if Qltb (SkillsMatch.score skills_match) 60
      then ["Expand technical skill set to better match job requirements"] else []).

(** The weighted sum of [calculate_match], before rounding. *)
Definition final_score (b : Breakdown) : Q :=
  SkillsMatch.score (skills_match b) * 0.4
  + inject_Z (ExperienceMatch.score (experience_match b)) * 0.3
  + inject_Z (SemanticMatch.score (semantic_match b)) * 0.2
  + inject_Z (EducationMatch.score (education_match b)) * 0.1.

(** The whole-result fallback of the outer [except]. *)
Definition fallback : MatchResult :=
  {| score := 50;
     recommendation := maybe;
     breakdown := None;
     matching_skills := [];
     missing_skills := [];
     experience_gap := GapBlank;
     recommendations := [] |}.

(** The body of the outer [try]: an exception of a matcher leaves it
    at once, before the semantic matcher is reached. *)
Definition calculate_match_try (vectorizer : TfidfVectorizer)
    (resume_data : ResumeData) (job_data : JobData)
  : (exn + MatchResult) * TfidfVectorizer :=
  let skills_match :=
    _calculate_skills_match (resume_skills resume_data)
      (job_requirements job_data ++ job_skills job_data) in
  match _calculate_experience_match (resume_experience resume_data) job_data with
  | inl e => (inl e, vectorizer)
  | inr experience_match =>
      let education_match :=
        _calculate_education_match (resume_education resume_data) job_data in
      let '(semantic_match, vectorizer') :=
        _calculate_semantic_match vectorizer resume_data job_data in
      let b := {| skills_match := skills_match;
                  experience_match := experience_match;
                  education_match := education_match;
                  semantic_match := semantic_match |} in
      (inr {| score := round (final_score b);
              recommendation := _get_recommendation (final_score b) skills_match experience_match;
              breakdown := Some b;
              matching_skills := SkillsMatch.matching_skills skills_match;
              missing_skills := SkillsMatch.missing_skills skills_match;
              experience_gap := ExperienceMatch.gap_analysis experience_match;
              recommendations := _generate_recommendations skills_match experience_match |},
       vectorizer')
  end.

Definition calculate_match (vectorizer : TfidfVectorizer)
    (resume_data : ResumeData) (job_data : JobData)
  : MatchResult * TfidfVectorizer :=
  match calculate_match_try vectorizer resume_data job_data with
  | (inr result, vectorizer') => (result, vectorizer')
  | (inl _, vectorizer') => (fallback, vectorizer')
  end.


End Matching.

(** ** Notions the properties are stated with *)

(** The band that contains a score, lower bounds inclusive. *)
Definition in_band (x : Q) (r : Recommendation) : Prop :=
  match r with
  | highly_recommended => 85 <= x
  | recommended => 70 <= x /\ x < 85
  | maybe => 50 <= x /\ x < 70
  | not_recommended => x < 50
  end.


(** A list of skills as a set, letter case ignored. *)
Definition ci_set (l : list string) : gset string := list_to_set (lower <$> l).

Definition Qsum (l : list Q) : Q := fold_right Qplus 0 l.




(** What the properties assume of scikit-learn: a cosine of two TF-IDF
    rows lies between 0 and 1. *)
Definition cosine_in_range (tfidf : string -> string -> option (list string * Q)) : Prop :=
  forall resume_text job_text vocabulary similarity,
    tfidf resume_text job_text = Some (vocabulary, similarity) ->
    0 <= similarity <= 1.

(** ** A stand-in for scikit-learn and sample inputs

    [shared_terms] instantiates the parameter [tfidf] where a concrete
    function is needed.  It is not TF-IDF: terms are the runs of two or
    more word characters of the lower-cased text, the fit raises when
    there is none, and the similarity is the share of the vocabulary the
    two documents have in common (1 for the same terms, 0 for none in
    common, as the cosine is there). *)

Definition is_word_char (c : ascii) : bool :=
  between 48 57 c || between 97 122 c || (code c =? 95)%N.

Definition emit (word : string) : list string :=
  if (2 <=? String.length word)%nat then [word] else [].

Fixpoint scan (word s : string) : list string :=
  match s with
  | EmptyString => emit word
  | String c s' =>
      if is_word_char c then scan (word +:+ String c EmptyString) s'
      else emit word ++ scan EmptyString s'
  end.

Definition terms (text : string) : list string := remove_dups (scan EmptyString (lower text)).

Definition shared_terms (resume_text job_text : string) : option (list string * Q) :=
  let vocabulary := remove_dups (terms resume_text ++ terms job_text) in
  let common := List.filter (fun t => mem t (terms job_text)) (terms resume_text) in
  if truthy vocabulary then Some (vocabulary, Qlen common / Qlen vocabulary) else None.

Definition experience_of (company : string) (years : Q) : ExperienceEntry :=
  {| exp_company := company; exp_position := ""; exp_description := "";
     exp_duration := years |}.

Definition degree_of (degree : string) : EducationEntry :=
  {| edu_degree := degree; edu_field := ""; edu_institution := "" |}.

(** The end-to-end scenario: three skills, four years, a bachelor. *)
Definition sample_resume : ResumeData :=
  {| resume_skills := ["Python"; "React"; "AWS"];
     resume_experience := [experience_of "" 4];
     resume_education := [degree_of "Bachelor"];
     resume_summary := "" |}.

Definition sample_job : JobData :=
  {| job_title := "Senior Software Engineer";
     job_company := "";
     job_description := "5+ years experience required, bachelor degree required";
     job_requirements := ["Python"; "AWS"; "Kubernetes"];
     job_skills := [] |}.



(** "JS" against "JavaScript": a synonym match on texts that share no
    term.  Twelve years at a finance company, no education entry. *)
Definition js_resume : ResumeData :=
  {| resume_skills := ["JS"];
     resume_experience := [experience_of "Global Finance Ltd" 12];
     resume_education := [];
     resume_summary := "" |}.

Definition js_job : JobData :=
  {| job_title := "Frontend Developer";
     job_company := "Payment Systems Inc";
     job_description := "Build web apps for our trading desk";
     job_requirements := ["JavaScript"];
     job_skills := [] |}.

(** A posting that asks for "0 years experience" and an experience
    entry whose duration is negative: the last branch of the years
    score divides by zero. *)
Definition negative_years_resume : ResumeData :=
  {| resume_skills := ["Python"];
     resume_experience := [experience_of "" (-1)];
     resume_education := [];
     resume_summary := "" |}.

Definition zero_years_job : JobData :=
  {| job_title := "Engineer";
     job_company := "";
     job_description := "0 years experience";
     job_requirements := ["Python"];
     job_skills := [] |}.

(** A resume and a posting whose texts are the single letter "C": no
    term of two characters, so the fit raises. *)
Definition c_resume : ResumeData :=
  {| resume_skills := ["C"];
     resume_experience := [experience_of "" 3];
     resume_education := [];
     resume_summary := "" |}.

Definition c_job : JobData :=
  {| job_title := "";
     job_company := "";
     job_description := "";
     job_requirements := ["C"];
     job_skills := [] |}.

(** A posting that lists Python among its requirements and again among
    its skills. *)
Definition python_twice_job : JobData :=
  {| job_title := "Backend Developer";
     job_company := "";
     job_description := "";
     job_requirements := ["Python"; "Go"; "Rust"; "SQL"];
     job_skills := ["Python"] |}.

(** ** Notions for the properties of the single matchers *)








(** A resume with the companies, durations and institutions taken
    out, and a posting with the company taken out. *)
Definition without_names (resume_data : ResumeData) : ResumeData :=
  {| resume_skills := resume_skills resume_data;
     resume_experience :=
       map (fun exp => {| exp_company := "";
                          exp_position := exp_position exp;
                          exp_description := exp_description exp;
                          exp_duration := 0 |})
         (resume_experience resume_data);
     resume_education :=
       map (fun edu => {| edu_degree := edu_degree edu;
                          edu_field := edu_field edu;
                          edu_institution := "" |})
         (resume_education resume_data);
     resume_summary := resume_summary resume_data |}.

Definition without_company (job_data : JobData) : JobData :=
  {| job_title := job_title job_data;
     job_company := "";
     job_description := job_description job_data;
     job_requirements := job_requirements job_data;
     job_skills := job_skills job_data |}.

(** A resume that lists no skill. *)
Definition unskilled_resume : ResumeData :=
  {| resume_skills := [];
     resume_experience := [experience_of "Global Finance Ltd" 4];
     resume_education := [degree_of "Master of Science"];
     resume_summary := "Analyst" |}.

(** A candidate who has both skills a short posting asks for. *)
Definition strong_resume : ResumeData :=
  {| resume_skills := ["Python"; "AWS"];
     resume_experience := [experience_of "" 3];
     resume_education := [degree_of "Bachelor"];
     resume_summary := "" |}.

Definition python_job : JobData :=
  {| job_title := "Python developer";
     job_company := "";
     job_description := "";
     job_requirements := ["Python"; "AWS"];
     job_skills := [] |}.

(** ** Proof automation *)

(** Case analysis on every [Qmin] and [Qmax] in sight. *)
Ltac split_min a b :=
  let H := fresh "Hmin" in
  destruct (Q.min_spec a b) as [[? H] | [? H]];
  generalize dependent (Qmin a b); intros.

Ltac split_max a b :=
  let H := fresh "Hmax" in
  destruct (Q.max_spec a b) as [[? H] | [? H]];
  generalize dependent (Qmax a b); intros.

Ltac split_minmax :=
  repeat match goal with
    | |- context [Qmin ?a ?b] => split_min a b
    | |- context [Qmax ?a ?b] => split_max a b
    | _ : context [Qmin ?a ?b] |- _ => split_min a b
    | _ : context [Qmax ?a ?b] |- _ => split_max a b
    end.

(** Case analysis on the outermost [if] of a hypothesis. *)
Ltac case_if_in H :=
  match type of H with
  | context [if ?b then _ else _] =>
      let E := fresh "E" in destruct b eqn:E
  end.


(** * Properties *)

(** ** The scenarios of the specification, evaluated *)

(** "JS" in the resume and "JavaScript" in the posting: matching. *)
Example synonym_resolution :
  SkillsMatch.matching_skills (_calculate_skills_match ["JS"] ["JavaScript"])
  = ["JavaScript"].
Proof. vm_compute. reflexivity. Qed.

(** No experience entry: score 0 and the fixed gap text. *)
Example empty_experience_scenario :
  _calculate_experience_match [] sample_job
  = inr {| ExperienceMatch.score := 0;
           ExperienceMatch.total_years := None;
           ExperienceMatch.required_years := None;
           ExperienceMatch.level_match := None;
           ExperienceMatch.gap_analysis := GapNoData |}.
Proof. reflexivity. Qed.

(** No requirement and no skill in the posting: score 0, nothing
    missing. *)
Example no_requirements_scenario :
  SkillsMatch.score (_calculate_skills_match ["Python"] ([] ++ [])) = 0
  /\ SkillsMatch.missing_skills (_calculate_skills_match ["Python"] ([] ++ [])) = [].
Proof. split; reflexivity. Qed.

(** The end-to-end scenario: two of three requirements matched with
    the bonuses of Python and AWS, five years required against four,
    level mid against senior, bachelor against bachelor. *)
Example end_to_end_components :
  SkillsMatch.score
    (_calculate_skills_match (resume_skills sample_resume)
       (job_requirements sample_job ++ job_skills sample_job))
  == 2 / 3 * 100 + 5 + 4
  /\ _calculate_experience_match (resume_experience sample_resume) sample_job
     = inr {| ExperienceMatch.score := 78;
              ExperienceMatch.total_years := Some 4;
              ExperienceMatch.required_years := Some 5%N;
              ExperienceMatch.level_match := Some false;
              ExperienceMatch.gap_analysis :=
                GapJoined [NeedYears (5 - 4); LevelGap "mid" "senior"] |}
  /\ EducationMatch.score
       (_calculate_education_match (resume_education sample_resume) sample_job)
     = 100%Z.
Proof. repeat split; vm_compute; reflexivity. Qed.

(** The four patterns and the title defaults of the required years. *)
Example required_years_patterns :
  _extract_required_experience "engineer" "5+ years experience required" = 5%N
  /\ _extract_required_experience "engineer" "10 years of relevant experience" = 10%N
  /\ _extract_required_experience "engineer" "a minimum of 3 years in the field" = 3%N
  /\ _extract_required_experience "engineer" "at least 7 years" = 7%N
  /\ _extract_required_experience "lead engineer" "many years" = 5%N
  /\ _extract_required_experience "intermediate analyst" "" = 3%N
  /\ _extract_required_experience "junior developer" "" = 1%N
  /\ _extract_required_experience "developer" "" = 2%N.
Proof. repeat split; vm_compute; reflexivity. Qed.

(** ** Rounding *)

Section Rounding.

Lemma inject_Z_succ (z : Z) : inject_Z (z + 1) == inject_Z z + 1.
Proof. rewrite inject_Z_plus. reflexivity. Qed.


Lemma floor_below (x : Q) : inject_Z (Qfloor x) <= x.
Proof. apply Qfloor_le. Qed.

Lemma floor_above (x : Q) : x < inject_Z (Qfloor x) + 1.
Proof.
  pose proof (Qlt_floor x) as H. rewrite inject_Z_succ in H. exact H.
Qed.


(** An integer bound on [x] is a bound on [round x]. *)
Lemma round_bounds (a b : Z) (x : Q) :
  inject_Z a <= x <= inject_Z b -> (a <= round x <= b)%Z.
Proof.
  intros [Ha Hb].
  pose proof (floor_below x) as Hl. pose proof (floor_above x) as Hu.
  assert (Hfa : (a <= Qfloor x)%Z).
  { assert (inject_Z a < inject_Z (Qfloor x + 1)) as H
      by (rewrite inject_Z_succ; lra).
    rewrite <- Zlt_Qlt in H. lia. }
  assert (Hfb : (Qfloor x <= b)%Z).
  { rewrite Zle_Qle. lra. }
  unfold round.
  destruct (x - inject_Z (Qfloor x) ?= 1 # 2) eqn:C.
  - apply Qeq_alt in C.
    destruct (Z.even (Qfloor x)); [lia |].
    assert (inject_Z (Qfloor x) < inject_Z b) as H by lra.
    rewrite <- Zlt_Qlt in H. lia.
  - lia.
  - apply Qgt_alt in C.
    assert (inject_Z (Qfloor x) < inject_Z b) as H by lra.
    rewrite <- Zlt_Qlt in H. lia.
Qed.

Lemma round_inject_Z (z : Z) : round (inject_Z z) = z.
Proof.
  unfold round. rewrite Qfloor_Z.
  assert (C : (inject_Z z - inject_Z z ?= 1 # 2) = Lt).
  { apply (proj1 (Qlt_alt _ _)). lra. }
  rewrite C. reflexivity.
Qed.



End Rounding.

(** ** The skills score *)

Section SkillsFacts.

Lemma Qle_bool_true (x y : Q) : Qle_bool x y = true <-> x <= y.
Proof. apply Qle_bool_iff. Qed.

Lemma Qle_bool_false (x y : Q) : Qle_bool x y = false <-> y < x.
Proof.
  destruct (Qle_bool x y) eqn:E.
  - apply Qle_bool_iff in E. split; [congruence | intros H; lra].
  - split; [intros _ | reflexivity].
    apply Qnot_le_lt. intros H. apply Qle_bool_iff in H. congruence.
Qed.

Lemma Qltb_true (x y : Q) : Qltb x y = true <-> x < y.
Proof.
  unfold Qltb. rewrite negb_true_iff. apply Qle_bool_false.
Qed.

Lemma Qlen_nonneg {A} (l : list A) : 0 <= Qlen l.
Proof.
  unfold Qlen. change 0 with (inject_Z 0). rewrite <- Zle_Qle. lia.
Qed.

Lemma Qlen_pos {A} (l : list A) : l <> [] -> 0 < Qlen l.
Proof.
  intros H. unfold Qlen. change 0 with (inject_Z 0). rewrite <- Zlt_Qlt.
  destruct l; [congruence | simpl; lia].
Qed.

Lemma Qlen_mono {A B} (l : list A) (l' : list B) :
  (length l <= length l')%nat -> Qlen l <= Qlen l'.
Proof. intros H. unfold Qlen. rewrite <- Zle_Qle. lia. Qed.

Lemma skill_bonus_cases (skill : string) :
  skill_bonus skill = 5 \/ skill_bonus skill = 3
  \/ skill_bonus skill = 4 \/ skill_bonus skill = 0.
Proof.
  unfold skill_bonus.
  repeat match goal with |- context [if ?b then _ else _] => destruct b end; auto.
Qed.

Lemma skill_bonus_nonneg (skill : string) : 0 <= skill_bonus skill.
Proof.
  destruct (skill_bonus_cases skill) as [H | [H | [H | H]]]; rewrite H; lra.
Qed.

Lemma Qsum_bonus_nonneg (l : list string) : 0 <= Qsum (map skill_bonus l).
Proof.
  induction l as [| s l IH]; simpl; [lra |].
  pose proof (skill_bonus_nonneg s). lra.
Qed.

(** The accumulating loop of [_apply_skill_weights] adds up the bonuses. *)
Lemma weights_loop_sum (l : list string) (base : Q) :
  fold_left (fun w skill => w + skill_bonus skill) l base
  == base + Qsum (map skill_bonus l).
Proof.
  revert base. induction l as [| s l IH]; intros base; simpl.
  - lra.
  - rewrite IH. lra.
Qed.

Lemma classify_requirements_filter (rl reqs : list string) :
  classify_requirements rl reqs
  = (List.filter (requirement_matches rl) reqs,
     List.filter (fun r => negb (requirement_matches rl r)) reqs).
Proof.
  induction reqs as [| r reqs IH]; simpl; [reflexivity |].
  rewrite IH. destruct (requirement_matches rl r); reflexivity.
Qed.

Lemma classify_requirements_length (rl reqs : list string) :
  (length (fst (classify_requirements rl reqs)) <= length reqs)%nat.
Proof.
  rewrite classify_requirements_filter. simpl. apply List.filter_length_le.
Qed.

Lemma truthy_false {A} (l : list A) : truthy l = false <-> l = [].
Proof. destruct l; simpl; split; congruence. Qed.

Lemma truthy_true {A} (l : list A) : truthy l = true <-> l <> [].
Proof. destruct l; simpl; split; congruence. Qed.

(** The score of the main path: the base score plus one bonus per
    entry of [matching_skills], capped at 100. *)
Lemma skills_score_main (resume_skills job_requirements : list string) :
  resume_skills <> [] -> job_requirements <> [] ->
  let m := _calculate_skills_match resume_skills job_requirements in
  SkillsMatch.score m
  == Qmin 100
       (Qlen (SkillsMatch.matching_skills m) / Qlen job_requirements * 100
        + Qsum (map skill_bonus (SkillsMatch.matching_skills m))).
Proof.
  intros Hr Hj. unfold _calculate_skills_match.
  apply truthy_true in Hr, Hj. rewrite Hr, Hj. simpl negb. simpl orb. cbv iota.
  destruct (classify_requirements _ job_requirements) as [matching missing].
  cbn [SkillsMatch.score SkillsMatch.matching_skills].
  unfold _apply_skill_weights.
  destruct matching as [| s matching]; cbn [truthy negb].
  - cbn [map Qsum fold_right].
    generalize (Qlen (@nil string) / Qlen job_requirements * 100). intros base.
    split_minmax; lra.
  - generalize (Qlen (s :: matching) / Qlen job_requirements * 100). intros base.
    pose proof (weights_loop_sum (s :: matching) base) as E.
    revert E.
    generalize (fold_left (fun w skill => w + skill_bonus skill) (s :: matching) base).
    generalize (Qsum (map skill_bonus (s :: matching))).
    intros total w E. split_minmax; lra.
Qed.

Lemma skills_score_range (resume_skills job_requirements : list string) :
  0 <= SkillsMatch.score (_calculate_skills_match resume_skills job_requirements) <= 100.
Proof.
  destruct (truthy resume_skills) eqn:Hr; [destruct (truthy job_requirements) eqn:Hj |].
  - apply truthy_true in Hr, Hj.
    pose proof (skills_score_main _ _ Hr Hj) as E. cbv zeta in E.
    revert E.
    set (m := _calculate_skills_match resume_skills job_requirements).
    pose proof (Qsum_bonus_nonneg (SkillsMatch.matching_skills m)) as Hs.
    pose proof (Qlen_nonneg (SkillsMatch.matching_skills m)) as Hm.
    pose proof (Qlen_pos _ Hj) as Hp.
    assert (0 <= Qlen (SkillsMatch.matching_skills m) / Qlen job_requirements) as Hd.
    { apply Qle_shift_div_l; [exact Hp | lra]. }
    revert Hs Hd.
    generalize (Qsum (map skill_bonus (SkillsMatch.matching_skills m))).
    generalize (Qlen (SkillsMatch.matching_skills m) / Qlen job_requirements).
    generalize (SkillsMatch.score m).
    intros sc ratio total Hs Hd. split_minmax; lra.
  - unfold _calculate_skills_match. rewrite Hr, Hj. simpl. lra.
  - unfold _calculate_skills_match. rewrite Hr. simpl. lra.
Qed.

End SkillsFacts.

(** ** Component ranges *)

Section ExperienceFacts.

Lemma inject_N_pos (n : N) : (n =? 0)%N = false -> 0 < inject_Z (Z.of_N n).
Proof.
  intros H. apply N.eqb_neq in H. change 0 with (inject_Z 0).
  rewrite <- Zlt_Qlt. lia.
Qed.

Lemma years_score_range (total_years : Q) (required_years : N) (ys : Q) :
  years_score total_years required_years = inr ys -> 20 <= ys <= 100.
Proof.
  unfold years_score. intros H.
  case_if_in H; [injection H as <-; lra |].
  case_if_in H; [injection H as <-; lra |].
  case_if_in H; [injection H as <-; lra |].
  case_if_in H; [discriminate |].
  injection H as <-.
  apply Qle_bool_false in E1. apply inject_N_pos in E2.
  assert (total_years / inject_Z (Z.of_N required_years) < 0.6) as Hd.
  { apply Qlt_shift_div_r; [exact E2 | lra]. }
  revert Hd. generalize (total_years / inject_Z (Z.of_N required_years)).
  intros ratio Hd. split_minmax; lra.
Qed.


Lemma level_alignment_range (resume_level required_level : string) :
  40 <= _calculate_level_alignment resume_level required_level <= 100.
Proof.
  unfold _calculate_level_alignment.
  repeat match goal with |- context [if ?b then _ else _] => destruct b end; lra.
Qed.

Lemma domain_match_range (resume_experience : list ExperienceEntry) (job_data : JobData) :
  50 <= _calculate_domain_match resume_experience job_data <= 100.
Proof.
  unfold _calculate_domain_match.
  repeat match goal with |- context [if ?b then _ else _] => destruct b end; lra.
Qed.

Lemma experience_score_range (resume_experience : list ExperienceEntry)
    (job_data : JobData) (m : ExperienceMatch.t) :
  _calculate_experience_match resume_experience job_data = inr m ->
  (0 <= ExperienceMatch.score m <= 100)%Z.
Proof.
  unfold _calculate_experience_match.
  destruct (truthy resume_experience); cbn [negb].
  - destruct (years_score _ _) as [e | ys] eqn:Hy; [discriminate |].
    intros H. injection H as <-. cbn [ExperienceMatch.score].
    apply years_score_range in Hy.
    pose proof (level_alignment_range
                  (_determine_experience_level
                     (fold_left Qplus (map exp_duration resume_experience) 0))
                  (_extract_required_level (lower (job_title job_data))
                     (lower (job_description job_data)))) as Hl.
    pose proof (domain_match_range resume_experience job_data) as Hd.
    apply round_bounds. change (inject_Z 0) with 0. change (inject_Z 100) with 100.
    lra.
  - intros H. injection H as <-. cbn. lia.
Qed.


End ExperienceFacts.

Section EducationFacts.

Lemma degree_score_cases (key : string) (default : Z) :
  In (dict_get degree_scores key default) [20; 40; 70; 90; 100; default]%Z.
Proof.
  unfold degree_scores. cbn [dict_get].
  repeat match goal with |- context [if ?b then _ else _] => destruct b end;
    cbn; auto 10.
Qed.

Lemma education_score_range (resume_education : list EducationEntry) (job_data : JobData) :
  (50 <= EducationMatch.score (_calculate_education_match resume_education job_data) <= 100)%Z.
Proof.
  unfold _calculate_education_match.
  destruct (truthy resume_education); cbn [negb]; [| cbn; lia].
  destruct (requires_degree _ _); cbn [negb]; [| cbn; lia].
  cbn [EducationMatch.score].
  apply round_bounds. change (inject_Z 50) with 50. change (inject_Z 100) with 100.
  destruct (Qle_bool _ _) eqn:E; [lra |].
  apply Qle_bool_false in E.
  assert (0 < inject_Z (dict_get degree_scores
                          (_extract_required_degree (lower (job_description job_data))
                             (job_requirements job_data)) 70%Z)) as Hpos.
  { change 0 with (inject_Z 0). rewrite <- Zlt_Qlt.
    pose proof (degree_score_cases
                  (_extract_required_degree (lower (job_description job_data))
                     (job_requirements job_data)) 70%Z) as Hc.
    cbn [In] in Hc. lia. }
  revert E Hpos.
  generalize (inject_Z (dict_get degree_scores
                          (_extract_required_degree (lower (job_description job_data))
                             (job_requirements job_data)) 70%Z)).
  generalize (inject_Z (dict_get degree_scores (_get_highest_degree resume_education) 50%Z)).
  intros rs rq E Hpos.
  assert (rs / rq < 1) as Hd by (apply Qlt_shift_div_r; [exact Hpos | lra]).
  revert Hd. generalize (rs / rq). intros ratio Hd. split_minmax; lra.
Qed.

End EducationFacts.

Section SemanticFacts.

Variable tfidf : string -> string -> option (list string * Q).
Hypothesis tfidf_range : cosine_in_range tfidf.

Lemma semantic_score_range (vectorizer : TfidfVectorizer)
    (resume_data : ResumeData) (job_data : JobData) :
  (0 <= SemanticMatch.score
          (fst (_calculate_semantic_match tfidf vectorizer resume_data job_data))
     <= 100)%Z.
Proof.
  unfold _calculate_semantic_match.
  destruct (negb _ || negb _); [cbn; lia |].
  unfold fit_transform_cosine.
  destruct (tfidf _ _) as [[vocabulary similarity] |] eqn:E; [| cbn; lia].
  cbn [fst SemanticMatch.score].
  apply tfidf_range in E.
  apply round_bounds. change (inject_Z 0) with 0. change (inject_Z 100) with 100.
  lra.
Qed.

End SemanticFacts.

(** ** The aggregator *)

Section AggregatorFacts.

Variable tfidf : string -> string -> option (list string * Q).

Lemma get_recommendation_in_band (x : Q) (s : SkillsMatch.t) (e : ExperienceMatch.t) :
  in_band x (_get_recommendation x s e).
Proof.
  unfold _get_recommendation.
  destruct (Qle_bool 85 x) eqn:E85; [apply Qle_bool_true in E85; exact E85 |].
  apply Qle_bool_false in E85.
  destruct (Qle_bool 70 x) eqn:E70; [apply Qle_bool_true in E70; split; assumption |].
  apply Qle_bool_false in E70.
  destruct (Qle_bool 50 x) eqn:E50; [apply Qle_bool_true in E50; split; assumption |].
  apply Qle_bool_false in E50. exact E50.
Qed.

Lemma Zle_inject (a b : Z) : (a <= b)%Z -> inject_Z a <= inject_Z b.
Proof. intros H. rewrite <- Zle_Qle. exact H. Qed.



(** What the body of the [try] returns when no matcher raises. *)
Lemma calculate_match_try_ok (vectorizer : TfidfVectorizer)
    (resume_data : ResumeData) (job_data : JobData) (result : MatchResult) :
  fst (calculate_match_try tfidf vectorizer resume_data job_data) = inr result ->
  exists b,
    breakdown result = Some b
    /\ skills_match b
       = _calculate_skills_match (resume_skills resume_data)
           (job_requirements job_data ++ job_skills job_data)
    /\ _calculate_experience_match (resume_experience resume_data) job_data
       = inr (experience_match b)
    /\ education_match b
       = _calculate_education_match (resume_education resume_data) job_data
    /\ semantic_match b
       = fst (_calculate_semantic_match tfidf vectorizer resume_data job_data)
    /\ score result = round (final_score b)
    /\ recommendation result
       = _get_recommendation (final_score b) (skills_match b) (experience_match b)
    /\ matching_skills result = SkillsMatch.matching_skills (skills_match b)
    /\ missing_skills result = SkillsMatch.missing_skills (skills_match b).
Proof.
  unfold calculate_match_try.
  destruct (_calculate_experience_match _ _) as [e | experience_match] eqn:He;
    [discriminate |].
  destruct (_calculate_semantic_match _ _ _ _) as [semantic_match vectorizer'].
  cbn [fst]. intros H. injection H as <-.
  eexists. cbn. repeat split; reflexivity.
Qed.


Lemma calculate_match_cases (vectorizer : TfidfVectorizer)
    (resume_data : ResumeData) (job_data : JobData) :
  (exists e, fst (calculate_match_try tfidf vectorizer resume_data job_data) = inl e
             /\ fst (calculate_match tfidf vectorizer resume_data job_data) = fallback)
  \/ fst (calculate_match_try tfidf vectorizer resume_data job_data)
     = inr (fst (calculate_match tfidf vectorizer resume_data job_data)).
Proof.
  unfold calculate_match.
  destruct (calculate_match_try _ _ _ _) as [[e | result] vectorizer']; cbn.
  - left. exists e. split; reflexivity.
  - right. reflexivity.
Qed.


Hypothesis tfidf_range : cosine_in_range tfidf.


End AggregatorFacts.

Lemma terms_NoDup (text : string) : NoDup (terms text).
Proof. apply NoDup_remove_dups. Qed.

(** The stand-in stays between 0 and 1. *)
Lemma shared_terms_in_range : cosine_in_range shared_terms.
Proof.
  intros a b vocabulary similarity. unfold shared_terms.
  set (vocab := remove_dups (terms a ++ terms b)).
  set (common := List.filter (fun t => mem t (terms b)) (terms a)).
  destruct (truthy vocab) eqn:Hv; [| discriminate].
  intros H. injection H as _ <-.
  apply truthy_true in Hv.
  pose proof (Qlen_pos vocab Hv) as Hpos.
  pose proof (Qlen_nonneg common) as Hc.
  assert (Hle : Qlen common <= Qlen vocab).
  { apply Qlen_mono, submseteq_length, NoDup_submseteq.
    - apply NoDup_ListNoDup, List.NoDup_filter, NoDup_ListNoDup, terms_NoDup.
    - intros x Hx. apply list_elem_of_In, List.filter_In in Hx as [Hx _].
      apply elem_of_remove_dups, elem_of_app. left. apply list_elem_of_In, Hx. }
  split.
  - apply Qle_shift_div_l; [exact Hpos | lra].
  - apply Qle_shift_div_r; [exact Hpos | lra].
Qed.






(** ** Failures and the shared vectorizer *)

Section SharedVectorizer.

Variable tfidf : string -> string -> option (list string * Q).






End SharedVectorizer.

(** C6.  When the body of the [try] raises, [calculate_match] still
    returns a result, and it is the whole-result fallback: score 50,
    [maybe], no breakdown, no skills, no gap text, no recommendations. *)
Theorem calculate_match_returns_fallback_on_error
    (tfidf : string -> string -> option (list string * Q))
    (vectorizer : TfidfVectorizer) (resume_data : ResumeData) (job_data : JobData)
    (e : exn) :
  fst (calculate_match_try tfidf vectorizer resume_data job_data) = inl e ->
  let result := fst (calculate_match tfidf vectorizer resume_data job_data) in
  score result = 50%Z
  /\ recommendation result = maybe
  /\ breakdown result = None
  /\ matching_skills result = []
  /\ missing_skills result = []
  /\ experience_gap result = GapBlank
  /\ recommendations result = [].
Proof.
  intros Hraise result.
  destruct (calculate_match_cases tfidf vectorizer resume_data job_data)
    as [(e' & _ & Hfb) | Hok].
  - subst result. rewrite Hfb. cbn. repeat split; reflexivity.
  - congruence.
Qed.

Lemma calculate_match_returns_fallback_on_error_witness :
  fst (calculate_match_try shared_terms unfitted negative_years_resume zero_years_job)
  = inl ZeroDivisionError
  /\ (let result :=
        fst (calculate_match shared_terms unfitted negative_years_resume zero_years_job) in
      score result = 50%Z
      /\ recommendation result = maybe
      /\ breakdown result = None
      /\ matching_skills result = []
      /\ missing_skills result = []
      /\ experience_gap result = GapBlank
      /\ recommendations result = []).
Proof.
  assert (H : fst (calculate_match_try shared_terms unfitted
                     negative_years_resume zero_years_job) = inl ZeroDivisionError)
    by (vm_compute; reflexivity).
  exact (conj H (calculate_match_returns_fallback_on_error shared_terms unfitted
                   negative_years_resume zero_years_job ZeroDivisionError H)).
Defined.

(** C2 (as the code has it).  Only the semantic matcher is isolated:
    when its fit raises, its fallback (score 50, similarity 0.5) stands
    in and the other three results are kept.  When the experience
    matcher raises, the whole result is the fallback. *)
Theorem matcher_failure_isolation
    (tfidf : string -> string -> option (list string * Q))
    (vectorizer : TfidfVectorizer) (resume_data : ResumeData) (job_data : JobData) :
  (forall experience,
      _calculate_experience_match (resume_experience resume_data) job_data
      = inr experience ->
      nonempty (_prepare_resume_text resume_data) = true ->
      nonempty (_prepare_job_text job_data) = true ->
      tfidf (_prepare_resume_text resume_data) (_prepare_job_text job_data) = None ->
      exists b,
        breakdown (fst (calculate_match tfidf vectorizer resume_data job_data)) = Some b
        /\ semantic_match b = semantic_fallback
        /\ skills_match b
           = _calculate_skills_match (resume_skills resume_data)
               (job_requirements job_data ++ job_skills job_data)
        /\ experience_match b = experience
        /\ education_match b
           = _calculate_education_match (resume_education resume_data) job_data)
  /\ (forall e,
        _calculate_experience_match (resume_experience resume_data) job_data = inl e ->
        fst (calculate_match tfidf vectorizer resume_data job_data) = fallback).
Proof.
  split.
  - intros experience He Hr Hj Hfit.
    unfold calculate_match, calculate_match_try. rewrite He.
    unfold _calculate_semantic_match, fit_transform_cosine.
    rewrite Hr, Hj, Hfit. cbn.
    eexists. repeat split; reflexivity.
  - intros e He. unfold calculate_match, calculate_match_try. rewrite He.
    reflexivity.
Qed.

Lemma matcher_failure_isolation_witness :
  (exists b,
      breakdown (fst (calculate_match shared_terms unfitted c_resume c_job)) = Some b
      /\ semantic_match b = semantic_fallback
      /\ skills_match b = _calculate_skills_match ["C"] ["C"]
      /\ ExperienceMatch.score (experience_match b) = 94%Z)
  /\ fst (calculate_match shared_terms unfitted negative_years_resume zero_years_job)
     = fallback.
Proof.
  split.
  - destruct (proj1 (matcher_failure_isolation shared_terms unfitted c_resume c_job)
                {| ExperienceMatch.score := 94;
                   ExperienceMatch.total_years := Some 3;
                   ExperienceMatch.required_years := Some 2%N;
                   ExperienceMatch.level_match := Some true;
                   ExperienceMatch.gap_analysis := GapFullyMet |})
      as (b & Hb & Hsem & Hsk & Hex & _);
      [vm_compute; reflexivity .. |].
    exists b. rewrite Hex. repeat split; assumption.
  - apply (proj2 (matcher_failure_isolation shared_terms unfitted
                    negative_years_resume zero_years_job) ZeroDivisionError).
    vm_compute. reflexivity.
Defined.

(** C2 as stated fails for the experience matcher.  It raises on a
    posting that asks for "0 years experience" and a negative duration;
    the result then has no breakdown and no matching skill, although
    the skills matcher had found "Python". *)
Lemma experience_failure_discards_other_results :
  _calculate_experience_match (resume_experience negative_years_resume) zero_years_job
  = inl ZeroDivisionError
  /\ SkillsMatch.matching_skills
       (_calculate_skills_match (resume_skills negative_years_resume)
          (job_requirements zero_years_job ++ job_skills zero_years_job))
     = ["Python"]
  /\ breakdown (fst (calculate_match shared_terms unfitted
                       negative_years_resume zero_years_job)) = None
  /\ matching_skills (fst (calculate_match shared_terms unfitted
                             negative_years_resume zero_years_job)) = [].
Proof. repeat split; vm_compute; reflexivity. Qed.



(** ** The two skill lists *)

Section RequirementSets.

Lemma ci_set_app (l1 l2 : list string) : ci_set (l1 ++ l2) = ci_set l1 ∪ ci_set l2.
Proof. unfold ci_set. rewrite fmap_app. apply list_to_set_app_L. Qed.

Lemma elem_of_ci_set (x : string) (l : list string) :
  x ∈ ci_set l <-> exists y, x = lower y /\ In y l.
Proof.
  unfold ci_set. rewrite elem_of_list_to_set, list_elem_of_fmap.
  split; intros (y & Hy & Hin); exists y; (split; [exact Hy |]);
    apply list_elem_of_In; exact Hin.
Qed.

(** The test on a requirement sees it through [lower] only. *)
Lemma requirement_matches_lower (rl : list string) (r1 r2 : string) :
  lower r1 = lower r2 -> requirement_matches rl r1 = requirement_matches rl r2.
Proof. intros H. unfold requirement_matches. rewrite H. reflexivity. Qed.

Lemma classified_cover (rl reqs : list string) :
  ci_set (fst (classify_requirements rl reqs)) ∪ ci_set (snd (classify_requirements rl reqs))
  = ci_set reqs.
Proof.
  rewrite classify_requirements_filter. cbn [fst snd].
  apply set_eq. intros x.
  rewrite elem_of_union, !elem_of_ci_set. split.
  - intros [(y & Hy & Hin) | (y & Hy & Hin)];
      apply List.filter_In in Hin as [Hin _]; exists y; split; assumption.
  - intros (y & Hy & Hin).
    destruct (requirement_matches rl y) eqn:E; [left | right];
      exists y; (split; [exact Hy |]); apply List.filter_In;
      (split; [exact Hin |]); rewrite E; reflexivity.
Qed.

Lemma classified_disjoint (rl reqs : list string) :
  ci_set (fst (classify_requirements rl reqs)) ## ci_set (snd (classify_requirements rl reqs)).
Proof.
  rewrite classify_requirements_filter. cbn [fst snd].
  apply elem_of_disjoint. intros x H1 H2.
  apply elem_of_ci_set in H1 as (y1 & Hy1 & Hin1).
  apply elem_of_ci_set in H2 as (y2 & Hy2 & Hin2).
  apply List.filter_In in Hin1 as [_ Hm1].
  apply List.filter_In in Hin2 as [_ Hm2].
  rewrite (requirement_matches_lower rl y1 y2) in Hm1 by congruence.
  rewrite Hm1 in Hm2. discriminate.
Qed.

End RequirementSets.

Section PartitionOfRequirements.

(** The two lists of the skills matcher cover its second argument and
    do not overlap. *)
Lemma skills_match_partition (resume_skills reqs : list string) :
  let m := _calculate_skills_match resume_skills reqs in
  ci_set (SkillsMatch.matching_skills m) ∪ ci_set (SkillsMatch.missing_skills m)
  = ci_set reqs
  /\ ci_set (SkillsMatch.matching_skills m) ## ci_set (SkillsMatch.missing_skills m).
Proof.
  cbv zeta. unfold _calculate_skills_match.
  destruct (negb (truthy resume_skills) || negb (truthy reqs)).
  - cbn [SkillsMatch.matching_skills SkillsMatch.missing_skills].
    split.
    + apply set_eq. intros x. rewrite elem_of_union, !elem_of_ci_set.
      split; [intros [(y & _ & Hin) | H]; [destruct Hin | exact H]
             | intros H; right; exact H].
    + apply elem_of_disjoint. intros x Hx.
      apply elem_of_ci_set in Hx as (y & _ & Hin). destruct Hin.
  - pose proof (classified_cover
                  (map (fun skill => strip (lower skill)) resume_skills) reqs) as Hc.
    pose proof (classified_disjoint
                  (map (fun skill => strip (lower skill)) resume_skills) reqs) as Hd.
    destruct (classify_requirements _ reqs) as [matching missing].
    cbn [fst snd SkillsMatch.matching_skills SkillsMatch.missing_skills] in *.
    split; assumption.
Qed.

(** On a run that does not fall back the two lists of the result are
    those of the skills matcher, so they partition the posting's items
    as well. *)
Lemma match_result_skill_lists
    (tfidf : string -> string -> option (list string * Q))
    (vectorizer : TfidfVectorizer) (resume_data : ResumeData) (job_data : JobData)
    (result : MatchResult) :
  fst (calculate_match_try tfidf vectorizer resume_data job_data) = inr result ->
  ci_set (matching_skills result) ∪ ci_set (missing_skills result)
  = ci_set (job_requirements job_data) ∪ ci_set (job_skills job_data)
  /\ ci_set (matching_skills result) ## ci_set (missing_skills result).
Proof.
  intros Hok.
  destruct (calculate_match_try_ok _ _ _ _ _ Hok)
    as (b & _ & Hs & _ & _ & _ & _ & _ & Hm & Hx).
  rewrite Hm, Hx, Hs, <- (ci_set_app (job_requirements job_data)).
  apply (skills_match_partition (resume_skills resume_data)
           (job_requirements job_data ++ job_skills job_data)).
Qed.

End PartitionOfRequirements.

(** C3.  The matching and the missing skills, letter case ignored,
    together are exactly the requirements and skills of the posting,
    and no item is in both. *)
Theorem skills_classified_into_exactly_one_bucket
    (resume_skills : list string) (job_data : JobData) :
  let m := _calculate_skills_match resume_skills
             (job_requirements job_data ++ job_skills job_data) in
  ci_set (SkillsMatch.matching_skills m) ∪ ci_set (SkillsMatch.missing_skills m)
  = ci_set (job_requirements job_data) ∪ ci_set (job_skills job_data)
  /\ ci_set (SkillsMatch.matching_skills m) ## ci_set (SkillsMatch.missing_skills m).
Proof.
  cbv zeta. rewrite <- (ci_set_app (job_requirements job_data)).
  apply skills_match_partition.
Qed.




(** An item the posting lists twice is two entries of the matching
    list: counted twice in the base score and awarded its bonus twice. *)
Example repeated_requirement_counts_twice :
  SkillsMatch.matching_skills
    (_calculate_skills_match ["Python"]
       (job_requirements python_twice_job ++ job_skills python_twice_job))
  = ["Python"; "Python"]
  /\ SkillsMatch.score
       (_calculate_skills_match ["Python"]
          (job_requirements python_twice_job ++ job_skills python_twice_job))
     == 2 / 5 * 100 + 5 + 5.
Proof. split; vm_compute; reflexivity. Qed.

(** ** Field shapes and the education matcher *)

(** C8 (as the code has it).  With no resume skill or no requirement
    the matcher returns score 0, no matching skill, every requirement
    as missing, and no match ratio; otherwise the result has all four
    fields, the ratio being matching / required. *)
Theorem skills_match_fields (resume_skills job_requirements : list string) :
  let m := _calculate_skills_match resume_skills job_requirements in
  (resume_skills = [] \/ job_requirements = [] ->
   SkillsMatch.score m = 0
   /\ SkillsMatch.matching_skills m = []
   /\ SkillsMatch.missing_skills m = job_requirements
   /\ SkillsMatch.match_ratio m = None)
  /\ (resume_skills <> [] -> job_requirements <> [] ->
      SkillsMatch.match_ratio m
      = Some (Qlen (SkillsMatch.matching_skills m) / Qlen job_requirements)).
Proof.
  cbv zeta. unfold _calculate_skills_match. split.
  - intros H.
    assert (negb (truthy resume_skills) || negb (truthy job_requirements) = true) as ->.
    { destruct H as [-> | ->]; [reflexivity | apply orb_true_r]. }
    cbn. repeat split; reflexivity.
  - intros Hr Hj. apply truthy_true in Hr, Hj. rewrite Hr, Hj. cbn [negb orb].
    destruct (classify_requirements _ job_requirements) as [matching missing].
    reflexivity.
Qed.

Lemma skills_match_fields_witness :
  (SkillsMatch.score (_calculate_skills_match [] ["Python"; "AWS"]) = 0
   /\ SkillsMatch.matching_skills (_calculate_skills_match [] ["Python"; "AWS"]) = []
   /\ SkillsMatch.missing_skills (_calculate_skills_match [] ["Python"; "AWS"])
      = ["Python"; "AWS"]
   /\ SkillsMatch.match_ratio (_calculate_skills_match [] ["Python"; "AWS"]) = None)
  /\ SkillsMatch.match_ratio (_calculate_skills_match ["Python"] ["Python"; "AWS"])
     = Some (Qlen (SkillsMatch.matching_skills
                     (_calculate_skills_match ["Python"] ["Python"; "AWS"]))
             / Qlen ["Python"; "AWS"]).
Proof.
  split.
  - apply (proj1 (skills_match_fields [] ["Python"; "AWS"])). left. reflexivity.
  - apply (proj2 (skills_match_fields ["Python"] ["Python"; "AWS"])); discriminate.
Defined.

(** C8 as stated fails: the early return has three fields only, with
    an empty resume skill list as with an empty requirement list. *)
Lemma early_return_has_no_match_ratio :
  SkillsMatch.match_ratio (_calculate_skills_match [] ["Python"; "AWS"]) = None
  /\ SkillsMatch.match_ratio (_calculate_skills_match ["Python"] []) = None
  /\ ~ is_Some (SkillsMatch.match_ratio (_calculate_skills_match [] ["Python"; "AWS"])).
Proof.
  repeat split; try reflexivity. intros [ratio H]. discriminate.
Qed.

Section DegreeFacts.

Lemma existsb_false {A} (f : A -> bool) (l : list A) :
  (forall x, In x l -> f x = false) -> existsb f l = false.
Proof.
  induction l as [| a l IH]; intros H; cbn; [reflexivity |].
  rewrite (H a) by (left; reflexivity). apply IH. intros x Hx. apply H. right. exact Hx.
Qed.

Lemma requires_degree_false (job_description : string) (job_requirements : list string) :
  (forall keyword,
      In keyword ["degree"; "bachelor"; "master"; "phd"; "education"] ->
      contains keyword job_description = false
      /\ forall req, In req job_requirements -> contains keyword (lower req) = false) ->
  requires_degree job_description job_requirements = false.
Proof.
  intros H. unfold requires_degree. apply existsb_false. intros keyword Hk.
  destruct (H keyword Hk) as [Hd Hr]. rewrite Hd. cbn [orb].
  apply existsb_false. exact Hr.
Qed.

Lemma degree_found_false (degree_level : string) (education : list EducationEntry) :
  (forall edu, In edu education -> contains degree_level (lower (edu_degree edu)) = false) ->
  (forall edu, In edu education -> contains "doctorate" (lower (edu_degree edu)) = false) ->
  degree_found degree_level education = false.
Proof.
  intros Hl Hd. unfold degree_found. apply existsb_false. intros edu Hin.
  rewrite (Hl edu Hin), (Hd edu Hin). rewrite andb_false_r. reflexivity.
Qed.

End DegreeFacts.

(** C9.  When neither the description nor any requirement of the
    posting contains one of the five keywords, a candidate with at
    least one education entry scores 100 whatever the entries are; with
    no entry the score is 50 and the analysis says so. *)
Theorem education_score_without_degree_keywords
    (resume_education : list EducationEntry) (job_data : JobData) :
  (forall keyword,
      In keyword ["degree"; "bachelor"; "master"; "phd"; "education"] ->
      contains keyword (lower (job_description job_data)) = false
      /\ forall req, In req (job_requirements job_data) ->
                     contains keyword (lower req) = false) ->
  let m := _calculate_education_match resume_education job_data in
  (resume_education <> [] -> EducationMatch.score m = 100%Z)
  /\ (resume_education = [] ->
      EducationMatch.score m = 50%Z
      /\ EducationMatch.analysis m = "No education data available").
Proof.
  intros Hk. cbv zeta. unfold _calculate_education_match. split.
  - intros Hne. apply truthy_true in Hne. rewrite Hne. cbn [negb].
    rewrite (requires_degree_false _ _ Hk). reflexivity.
  - intros ->. cbn. split; reflexivity.
Qed.

Lemma education_score_without_degree_keywords_witness :
  EducationMatch.score (_calculate_education_match [degree_of "PhD"] js_job) = 100%Z
  /\ EducationMatch.score (_calculate_education_match [degree_of "High School"] js_job)
     = 100%Z.
Proof.
  assert (Hk : forall keyword,
             In keyword ["degree"; "bachelor"; "master"; "phd"; "education"] ->
             contains keyword (lower (job_description js_job)) = false
             /\ forall req, In req (job_requirements js_job) ->
                            contains keyword (lower req) = false).
  { intros keyword Hin. cbn [In] in Hin.
    destruct Hin as [<- | [<- | [<- | [<- | [<- | []]]]]];
      (split; [vm_compute; reflexivity |]);
      intros req [<- | []]; vm_compute; reflexivity. }
  split.
  - apply (proj1 (education_score_without_degree_keywords [degree_of "PhD"] js_job Hk)).
    discriminate.
  - apply (proj1 (education_score_without_degree_keywords
                    [degree_of "High School"] js_job Hk)).
    discriminate.
Defined.

(** C10.  When no degree of a non-empty education list contains one of
    the six level names, the highest degree is "bachelor", and the
    candidate scores 100 against every posting whose required degree is
    inferred to be bachelor. *)
Theorem unrecognised_degree_counts_as_bachelor (resume_education : list EducationEntry) :
  resume_education <> [] ->
  (forall edu level,
      In edu resume_education ->
      In level ["phd"; "doctorate"; "master"; "bachelor"; "associate"; "high_school"] ->
      contains level (lower (edu_degree edu)) = false) ->
  _get_highest_degree resume_education = "bachelor"
  /\ forall job_data,
       _extract_required_degree (lower (job_description job_data))
         (job_requirements job_data) = "bachelor" ->
       EducationMatch.score (_calculate_education_match resume_education job_data)
       = 100%Z.
Proof.
  intros Hne Hnone.
  assert (Hhigh : _get_highest_degree resume_education = "bachelor").
  { unfold _get_highest_degree, degree_hierarchy. cbn [first_degree].
    rewrite !degree_found_false; [reflexivity | ..];
      intros edu Hin; apply Hnone; auto; cbn; auto 10. }
  split; [exact Hhigh |].
  intros job_data Hreq. unfold _calculate_education_match.
  apply truthy_true in Hne. rewrite Hne. cbn [negb].
  destruct (requires_degree _ _); cbn [negb]; [| reflexivity].
  rewrite Hhigh, Hreq. vm_compute. reflexivity.
Qed.

Lemma unrecognised_degree_counts_as_bachelor_witness :
  _get_highest_degree [degree_of "Diploma in Nursing"] = "bachelor"
  /\ EducationMatch.score
       (_calculate_education_match [degree_of "Diploma in Nursing"] sample_job)
     = 100%Z.
Proof.
  destruct (unrecognised_degree_counts_as_bachelor [degree_of "Diploma in Nursing"])
    as [Hhigh Hscore].
  - discriminate.
  - intros edu level [<- | []] Hl. cbn [In] in Hl.
    destruct Hl as [<- | [<- | [<- | [<- | [<- | [<- | []]]]]]]; vm_compute; reflexivity.
  - split; [exact Hhigh |]. apply Hscore. vm_compute. reflexivity.
Defined.

(** * Properties of the single matchers *)

(** ** Further properties of the skills matcher *)

Section TextFacts.

Lemma contains_empty (s : string) : contains "" s = true.
Proof. destruct s; reflexivity. Qed.

Lemma lower_char_idempotent (c : ascii) : lower_char (lower_char c) = lower_char c.
Proof. destruct c as [[] [] [] [] [] [] [] []]; reflexivity. Qed.

Lemma lower_idempotent (s : string) : lower (lower s) = lower s.
Proof.
  induction s as [| c s IH]; cbn; [reflexivity |].
  rewrite lower_char_idempotent, IH. reflexivity.
Qed.

Lemma mem_In (x : string) (l : list string) : mem x l = true <-> In x l.
Proof.
  unfold mem. rewrite existsb_exists. split.
  - intros (y & Hin & Heq). apply String.eqb_eq in Heq. subst y. exact Hin.
  - intros Hin. exists x. split; [exact Hin | apply String.eqb_refl].
Qed.

Lemma mem_app (x : string) (l1 l2 : list string) :
  mem x (l1 ++ l2) = mem x l1 || mem x l2.
Proof. unfold mem. apply existsb_app. Qed.

End TextFacts.

Section SkillSymmetry.

Lemma similar_skills_symmetric (skill1 skill2 : string) :
  _are_similar_skills skill1 skill2 = _are_similar_skills skill2 skill1.
Proof.
  unfold _are_similar_skills.
  induction synonyms as [| [main_skill skill_synonyms] rest IH]; cbn [existsb];
    [reflexivity |].
  rewrite IH. f_equal.
  destruct (String.eqb skill1 main_skill), (String.eqb skill2 main_skill),
    (mem skill1 skill_synonyms), (mem skill2 skill_synonyms); reflexivity.
Qed.

End SkillSymmetry.

(** X1.  The synonym test does not depend on the order of its two
    skills, and neither does the whole test between one requirement and
    one resume skill: a requirement [a] matches the resume [[b]] exactly
    when [b] as a requirement matches the resume [[a]]. *)
Theorem skill_matching_is_symmetric (a b : string) :
  _are_similar_skills a b = _are_similar_skills b a
  /\ requirement_matches [strip (lower a)] b = requirement_matches [strip (lower b)] a.
Proof.
  split; [apply similar_skills_symmetric |].
  unfold requirement_matches, mem. cbn [existsb].
  rewrite (similar_skills_symmetric (strip (lower b)) (strip (lower a))).
  rewrite (String.eqb_sym (strip (lower b)) (strip (lower a))).
  destruct (String.eqb _ _), (contains (strip (lower b)) (strip (lower a))),
    (contains (strip (lower a)) (strip (lower b))), (_are_similar_skills _ _);
    reflexivity.
Qed.

Section BlankEntries.

Lemma matches_blank_resume_skill (rl : list string) (requirement : string) :
  In "" rl -> requirement_matches rl requirement = true.
Proof.
  intros Hin. unfold requirement_matches.
  destruct (mem _ rl); [reflexivity |].
  apply existsb_exists. exists "". split; [exact Hin |].
  rewrite contains_empty. destruct (contains _ ""); reflexivity.
Qed.

Lemma blank_requirement_matches (rl : list string) (requirement : string) :
  rl <> [] -> strip (lower requirement) = "" -> requirement_matches rl requirement = true.
Proof.
  intros Hne Hblank. unfold requirement_matches. rewrite Hblank.
  destruct (mem "" rl); [reflexivity |].
  destruct rl as [| s rl]; [congruence |].
  cbn [existsb]. rewrite contains_empty. reflexivity.
Qed.

Lemma classify_all_match (rl reqs : list string) :
  (forall r, In r reqs -> requirement_matches rl r = true) ->
  classify_requirements rl reqs = (reqs, []).
Proof.
  induction reqs as [| r reqs IH]; intros H; cbn [classify_requirements];
    [reflexivity |].
  rewrite IH by (intros r' Hr'; apply H; right; exact Hr').
  rewrite (H r) by (left; reflexivity). reflexivity.
Qed.

(** With nothing missing the score of the main path is 100. *)
Lemma score_when_nothing_missing (resume_skills job_requirements : list string) :
  resume_skills <> [] -> job_requirements <> [] ->
  SkillsMatch.matching_skills (_calculate_skills_match resume_skills job_requirements)
  = job_requirements ->
  SkillsMatch.score (_calculate_skills_match resume_skills job_requirements) == 100.
Proof.
  intros Hr Hj Hall.
  pose proof (skills_score_main _ _ Hr Hj) as E. cbv zeta in E. rewrite Hall in E.
  rewrite E.
  pose proof (Qsum_bonus_nonneg job_requirements) as Hs.
  pose proof (Qlen_pos _ Hj) as Hp.
  assert (Qlen job_requirements / Qlen job_requirements == 1) as Hd
    by (field; lra).
  rewrite Hd. revert Hs. generalize (Qsum (map skill_bonus job_requirements)).
  intros total Hs. split_minmax; lra.
Qed.

End BlankEntries.

(** X2.  A resume skill that is blank after trimming matches every
    requirement: nothing is missing and the score is 100.  A requirement
    that is blank after trimming is matched by every non-empty resume
    skill list. *)
Theorem blank_entries_always_match (resume_skills job_requirements : list string) :
  (forall skill,
      In skill resume_skills -> strip (lower skill) = "" -> job_requirements <> [] ->
      let m := _calculate_skills_match resume_skills job_requirements in
      SkillsMatch.matching_skills m = job_requirements
      /\ SkillsMatch.missing_skills m = []
      /\ SkillsMatch.score m == 100)
  /\ (forall requirement,
        resume_skills <> [] -> In requirement job_requirements ->
        strip (lower requirement) = "" ->
        In requirement
          (SkillsMatch.matching_skills
             (_calculate_skills_match resume_skills job_requirements))).
Proof.
  split.
  - intros skill Hin Hblank Hj. cbv zeta.
    assert (Hr : resume_skills <> []) by (intros ->; destruct Hin).
    assert (Hcl : classify_requirements
                    (map (fun s => strip (lower s)) resume_skills) job_requirements
                  = (job_requirements, [])).
    { apply classify_all_match. intros r _. apply matches_blank_resume_skill.
      rewrite <- Hblank. apply (in_map (fun s => strip (lower s))). exact Hin. }
    assert (Hm : SkillsMatch.matching_skills
                   (_calculate_skills_match resume_skills job_requirements)
                 = job_requirements
                 /\ SkillsMatch.missing_skills
                      (_calculate_skills_match resume_skills job_requirements) = []).
    { unfold _calculate_skills_match.
      apply truthy_true in Hr, Hj. rewrite Hr, Hj. cbn [negb orb].
      rewrite Hcl. split; reflexivity. }
    destruct Hm as [Hm Hx]. split; [exact Hm | split; [exact Hx |]].
    apply score_when_nothing_missing; assumption.
  - intros requirement Hr Hin Hblank.
    assert (Hj : job_requirements <> []) by (intros ->; destruct Hin).
    unfold _calculate_skills_match.
    apply truthy_true in Hr as Hr', Hj. rewrite Hr', Hj. cbn [negb orb].
    rewrite classify_requirements_filter. cbn [SkillsMatch.matching_skills].
    apply List.filter_In. split; [exact Hin |].
    apply blank_requirement_matches; [| exact Hblank].
    destruct resume_skills; [congruence | discriminate].
Qed.

Lemma blank_entries_always_match_witness :
  (SkillsMatch.matching_skills (_calculate_skills_match ["Excel"; " "] ["Python"; "AWS"])
   = ["Python"; "AWS"]
   /\ SkillsMatch.missing_skills (_calculate_skills_match ["Excel"; " "] ["Python"; "AWS"])
      = []
   /\ SkillsMatch.score (_calculate_skills_match ["Excel"; " "] ["Python"; "AWS"]) == 100)
  /\ In "  " (SkillsMatch.matching_skills
               (_calculate_skills_match ["Excel"] ["Python"; "  "])).
Proof.
  split.
  - apply (proj1 (blank_entries_always_match ["Excel"; " "] ["Python"; "AWS"]) " ").
    + right. left. reflexivity.
    + reflexivity.
    + discriminate.
  - apply (proj2 (blank_entries_always_match ["Excel"] ["Python"; "  "]) "  ").
    + discriminate.
    + right. left. reflexivity.
    + reflexivity.
Defined.

(** X3.  The two lists are the requirements split in two: together a
    permutation of them, each in the order of the posting, their
    lengths adding up to the number of requirements. *)
Theorem skill_lists_split_the_requirements (resume_skills job_requirements : list string) :
  let m := _calculate_skills_match resume_skills job_requirements in
  SkillsMatch.matching_skills m ++ SkillsMatch.missing_skills m ≡ₚ job_requirements
  /\ sublist (SkillsMatch.matching_skills m) job_requirements
  /\ sublist (SkillsMatch.missing_skills m) job_requirements
  /\ (length (SkillsMatch.matching_skills m) + length (SkillsMatch.missing_skills m)
      = length job_requirements)%nat.
Proof.
  cbv zeta.
  assert (Hcl : forall rl reqs,
             fst (classify_requirements rl reqs) ++ snd (classify_requirements rl reqs)
               ≡ₚ reqs
             /\ sublist (fst (classify_requirements rl reqs)) reqs
             /\ sublist (snd (classify_requirements rl reqs)) reqs).
  { intros rl reqs. induction reqs as [| r reqs (IHp & IHm & IHx)];
      cbn [classify_requirements].
    - cbn. repeat split; constructor.
    - destruct (classify_requirements rl reqs) as [matching missing].
      cbn [fst snd] in *.
      destruct (requirement_matches rl r); cbn [fst snd].
      + repeat split.
        * cbn. constructor. exact IHp.
        * constructor. exact IHm.
        * apply sublist_cons. exact IHx.
      + repeat split.
        * rewrite <- Permutation_middle. constructor. exact IHp.
        * apply sublist_cons. exact IHm.
        * constructor. exact IHx. }
  assert (H : SkillsMatch.matching_skills
                (_calculate_skills_match resume_skills job_requirements)
              ++ SkillsMatch.missing_skills
                   (_calculate_skills_match resume_skills job_requirements)
                ≡ₚ job_requirements
              /\ sublist (SkillsMatch.matching_skills
                            (_calculate_skills_match resume_skills job_requirements))
                   job_requirements
              /\ sublist (SkillsMatch.missing_skills
                            (_calculate_skills_match resume_skills job_requirements))
                   job_requirements).
  { unfold _calculate_skills_match.
    destruct (negb (truthy resume_skills) || negb (truthy job_requirements)).
    - cbn. repeat split; [reflexivity | apply sublist_nil_l | reflexivity].
    - specialize (Hcl (map (fun skill => strip (lower skill)) resume_skills)
                    job_requirements).
      destruct (classify_requirements _ job_requirements) as [matching missing].
      exact Hcl. }
  destruct H as (Hp & Hm & Hx). repeat split; try assumption.
  rewrite <- length_app. apply Permutation_length. exact Hp.
Qed.

Section MoreResumeSkills.

Lemma requirement_matches_more (rl extra : list string) (requirement : string) :
  requirement_matches rl requirement = true ->
  requirement_matches (rl ++ extra) requirement = true.
Proof.
  unfold requirement_matches. rewrite mem_app, existsb_app.
  destruct (mem _ rl); [reflexivity |].
  intros ->. rewrite orb_true_l. destruct (mem _ extra); reflexivity.
Qed.

(** A weaker test keeps fewer entries: fewer matches and a smaller sum
    of bonuses. *)
Lemma filter_weaker (p q : string -> bool) (l : list string) :
  (forall x, p x = true -> q x = true) ->
  sublist (List.filter p l) (List.filter q l)
  /\ Qlen (List.filter p l) <= Qlen (List.filter q l)
  /\ Qsum (map skill_bonus (List.filter p l)) <= Qsum (map skill_bonus (List.filter q l)).
Proof.
  intros Hpq. induction l as [| x l (IHs & IHl & IHb)]; cbn [List.filter].
  - repeat split; [constructor | apply Qle_refl | apply Qle_refl].
  - assert (Hstep : forall l' : list string, Qlen (x :: l') == Qlen l' + 1).
    { intros l'. unfold Qlen. cbn [length].
      rewrite Nat2Z.inj_succ, <- Z.add_1_r, inject_Z_plus. reflexivity. }
    pose proof (skill_bonus_nonneg x) as Hx.
    destruct (p x) eqn:Hp.
    + rewrite (Hpq x Hp). repeat split.
      * constructor. exact IHs.
      * rewrite !Hstep. lra.
      * cbn [map Qsum fold_right]. fold (Qsum (map skill_bonus (List.filter p l))).
        fold (Qsum (map skill_bonus (List.filter q l))). lra.
    + destruct (q x).
      * repeat split.
        -- apply sublist_cons. exact IHs.
        -- rewrite Hstep. lra.
        -- cbn [map Qsum fold_right].
           fold (Qsum (map skill_bonus (List.filter q l))). lra.
      * repeat split; assumption.
Qed.

Lemma skills_score_of_filter (resume_skills job_requirements : list string) :
  resume_skills <> [] -> job_requirements <> [] ->
  let matching :=
    List.filter (requirement_matches (map (fun s => strip (lower s)) resume_skills))
      job_requirements in
  SkillsMatch.matching_skills (_calculate_skills_match resume_skills job_requirements)
  = matching
  /\ SkillsMatch.score (_calculate_skills_match resume_skills job_requirements)
     == Qmin 100 (Qlen matching / Qlen job_requirements * 100
                  + Qsum (map skill_bonus matching)).
Proof.
  intros Hr Hj matching.
  assert (Hm : SkillsMatch.matching_skills
                 (_calculate_skills_match resume_skills job_requirements) = matching).
  { unfold _calculate_skills_match.
    apply truthy_true in Hr, Hj. rewrite Hr, Hj. cbn [negb orb].
    rewrite classify_requirements_filter. reflexivity. }
  split; [exact Hm |].
  pose proof (skills_score_main _ _ Hr Hj) as E. cbv zeta in E.
  rewrite Hm in E. exact E.
Qed.

End MoreResumeSkills.

(** X4.  Adding skills to a resume never loses a match and never lowers
    the skills score. *)
Theorem more_resume_skills_never_hurt (resume_skills extra job_requirements : list string) :
  sublist
    (SkillsMatch.matching_skills (_calculate_skills_match resume_skills job_requirements))
    (SkillsMatch.matching_skills
       (_calculate_skills_match (resume_skills ++ extra) job_requirements))
  /\ SkillsMatch.score (_calculate_skills_match resume_skills job_requirements)
     <= SkillsMatch.score
          (_calculate_skills_match (resume_skills ++ extra) job_requirements).
Proof.
  destruct resume_skills as [| s resume_skills].
  { split; [apply sublist_nil_l |].
    change (0 <= SkillsMatch.score (_calculate_skills_match ([] ++ extra) job_requirements)).
    apply skills_score_range. }
  destruct job_requirements as [| r job_requirements].
  { split; [constructor | apply Qle_refl]. }
  assert (Hr : s :: resume_skills <> []) by discriminate.
  assert (Hr' : (s :: resume_skills) ++ extra <> []) by discriminate.
  assert (Hj : r :: job_requirements <> []) by discriminate.
  destruct (skills_score_of_filter _ _ Hr Hj) as [Hm Hs].
  destruct (skills_score_of_filter _ _ Hr' Hj) as [Hm' Hs'].
  rewrite Hm, Hm', Hs, Hs'. rewrite map_app.
  destruct (filter_weaker
              (requirement_matches (map (fun s => strip (lower s)) (s :: resume_skills)))
              (requirement_matches (map (fun s => strip (lower s)) (s :: resume_skills)
                                    ++ map (fun s => strip (lower s)) extra))
              (r :: job_requirements))
    as (Hsub & Hlen & Hbonus).
  { intros x. apply requirement_matches_more. }
  split; [exact Hsub |].
  pose proof (Qlen_pos _ Hj) as Hp.
  assert (Hdiv : forall a b, a <= b ->
                             a / Qlen (r :: job_requirements)
                             <= b / Qlen (r :: job_requirements)).
  { intros a b Hab. apply Qmult_le_compat_r; [exact Hab |].
    apply Qlt_le_weak, Qinv_lt_0_compat, Hp. }
  apply Hdiv in Hlen. revert Hlen Hbonus.
  generalize (Qlen (List.filter
                      (requirement_matches
                         (map (fun s => strip (lower s)) (s :: resume_skills)))
                      (r :: job_requirements)) / Qlen (r :: job_requirements)).
  generalize (Qlen (List.filter
                      (requirement_matches
                         (map (fun s => strip (lower s)) (s :: resume_skills)
                          ++ map (fun s => strip (lower s)) extra))
                      (r :: job_requirements)) / Qlen (r :: job_requirements)).
  generalize (Qsum (map skill_bonus
                      (List.filter
                         (requirement_matches
                            (map (fun s => strip (lower s)) (s :: resume_skills)))
                         (r :: job_requirements)))).
  generalize (Qsum (map skill_bonus
                      (List.filter
                         (requirement_matches
                            (map (fun s => strip (lower s)) (s :: resume_skills)
                             ++ map (fun s => strip (lower s)) extra))
                         (r :: job_requirements)))).
  intros b' b a' a Ha Hb. split_minmax; lra.
Qed.

Section LetterCase.

Lemma skill_bonus_lower (skill : string) : skill_bonus (lower skill) = skill_bonus skill.
Proof. unfold skill_bonus. rewrite lower_idempotent. reflexivity. Qed.

Lemma classify_requirements_lower (rl reqs : list string) :
  classify_requirements rl (map lower reqs)
  = (map lower (fst (classify_requirements rl reqs)),
     map lower (snd (classify_requirements rl reqs))).
Proof.
  induction reqs as [| r reqs IH]; cbn [map classify_requirements]; [reflexivity |].
  rewrite IH.
  rewrite (requirement_matches_lower rl (lower r) r (lower_idempotent r)).
  destruct (classify_requirements rl reqs) as [matching missing].
  destruct (requirement_matches rl r); reflexivity.
Qed.

Lemma weights_loop_lower (l : list string) (base : Q) :
  fold_left (fun w skill => w + skill_bonus skill) (map lower l) base
  = fold_left (fun w skill => w + skill_bonus skill) l base.
Proof.
  revert base. induction l as [| s l IH]; intros base; cbn [map fold_left];
    [reflexivity |].
  rewrite skill_bonus_lower. apply IH.
Qed.

Lemma truthy_map {A B} (f : A -> B) (l : list A) : truthy (map f l) = truthy l.
Proof. destruct l; reflexivity. Qed.

Lemma Qlen_map {A B} (f : A -> B) (l : list A) : Qlen (map f l) = Qlen l.
Proof. unfold Qlen. rewrite length_map. reflexivity. Qed.

End LetterCase.

(** X5.  Letter case does not count: lower-casing the resume skills and
    the requirements gives the same score and the same match ratio, and
    the same two lists in lower case. *)
Theorem skills_match_ignores_letter_case (resume_skills job_requirements : list string) :
  let m := _calculate_skills_match resume_skills job_requirements in
  let m' := _calculate_skills_match (map lower resume_skills) (map lower job_requirements) in
  SkillsMatch.score m' = SkillsMatch.score m
  /\ SkillsMatch.match_ratio m' = SkillsMatch.match_ratio m
  /\ SkillsMatch.matching_skills m' = map lower (SkillsMatch.matching_skills m)
  /\ SkillsMatch.missing_skills m' = map lower (SkillsMatch.missing_skills m).
Proof.
  cbv zeta. unfold _calculate_skills_match.
  rewrite !truthy_map.
  destruct (negb (truthy resume_skills) || negb (truthy job_requirements)).
  { cbn. repeat split; reflexivity. }
  rewrite List.map_map.
  rewrite (List.map_ext (fun x => strip (lower (lower x))) (fun x => strip (lower x)))
    by (intros x; rewrite lower_idempotent; reflexivity).
  rewrite classify_requirements_lower.
  destruct (classify_requirements _ job_requirements) as [matching missing].
  cbn [fst snd SkillsMatch.score SkillsMatch.match_ratio
         SkillsMatch.matching_skills SkillsMatch.missing_skills].
  rewrite !Qlen_map. unfold _apply_skill_weights.
  rewrite truthy_map, weights_loop_lower.
  repeat split; reflexivity.
Qed.

(** ** Further properties of the experience matcher *)

Section Durations.




End Durations.



Section Levels.

Lemma determine_level_cases (years : Q) :
  In (_determine_experience_level years) ["entry"; "junior"; "mid"; "senior"; "executive"].
Proof.
  unfold _determine_experience_level.
  repeat match goal with |- context [if ?b then _ else _] => destruct b end;
    cbn; auto 10.
Qed.

Lemma determine_level_executive (years : Q) :
  10 <= years -> _determine_experience_level years = "executive".
Proof.
  intros H. unfold _determine_experience_level, Qltb.
  assert (E : forall bound, bound <= 10 -> Qle_bool bound years = true)
    by (intros bound Hb; apply Qle_bool_true; lra).
  rewrite !E by lra. reflexivity.
Qed.

Lemma required_level_cases (job_title job_description : string) :
  In (_extract_required_level job_title job_description) ["senior"; "junior"; "mid"].
Proof.
  unfold _extract_required_level.
  repeat match goal with |- context [if ?b then _ else _] => destruct b end;
    cbn; auto.
Qed.

End Levels.

(** X7.  Ten years or more make the candidate an "executive", a level
    no posting is ever read to require ("senior", "junior" or "mid"
    only): the level alignment is 40, the levels never match and the
    experience score is at most 82. *)
Theorem ten_years_cap_the_experience_score
    (resume_experience : list ExperienceEntry) (job_data : JobData)
    (m : ExperienceMatch.t) (years : Q) :
  _calculate_experience_match resume_experience job_data = inr m ->
  ExperienceMatch.total_years m = Some years ->
  10 <= years ->
  _determine_experience_level years = "executive"
  /\ _calculate_level_alignment (_determine_experience_level years)
       (_extract_required_level (lower (job_title job_data))
          (lower (job_description job_data))) = 40
  /\ ExperienceMatch.level_match m = Some false
  /\ (ExperienceMatch.score m <= 82)%Z.
Proof.
  unfold _calculate_experience_match.
  destruct (truthy resume_experience); cbn [negb];
    [| intros H; injection H as <-; discriminate].
  destruct (years_score _ _) as [e | ys] eqn:Hy; [discriminate |].
  intros H Ht Hten. injection H as <-.
  cbn [ExperienceMatch.total_years ExperienceMatch.level_match ExperienceMatch.score] in *.
  injection Ht as Ht. rewrite Ht in *.
  rewrite (determine_level_executive years Hten).
  apply years_score_range in Hy.
  pose proof (domain_match_range resume_experience job_data) as Hd.
  pose proof (required_level_cases (lower (job_title job_data))
                (lower (job_description job_data))) as Hc.
  revert Hc.
  generalize (_extract_required_level (lower (job_title job_data))
                (lower (job_description job_data))).
  intros required Hc. cbn [In] in Hc.
  assert (Ha : _calculate_level_alignment "executive" required = 40
               /\ String.eqb "executive" required = false).
  { destruct Hc as [<- | [<- | [<- | []]]]; split; reflexivity. }
  destruct Ha as [Ha Hm]. rewrite Ha, Hm.
  repeat split.
  apply (round_bounds 0 82). change (inject_Z 0) with 0. change (inject_Z 82) with 82.
  lra.
Qed.

Lemma ten_years_cap_the_experience_score_witness :
  exists m,
    _calculate_experience_match (resume_experience js_resume) js_job = inr m
    /\ ExperienceMatch.level_match m = Some false
    /\ (ExperienceMatch.score m <= 82)%Z.
Proof.
  eexists. split; [vm_compute; reflexivity |].
  refine (proj2 (proj2 (ten_years_cap_the_experience_score
                          (resume_experience js_resume) js_job _ 12 _ _ _)));
    [vm_compute; reflexivity | reflexivity | vm_compute; discriminate].
Defined.

(** X8.  The experience score is 0 exactly when the resume has no
    experience entry; with at least one entry it lies between 32 and
    100. *)
Theorem experience_score_zero_only_without_entries
    (resume_experience : list ExperienceEntry) (job_data : JobData)
    (m : ExperienceMatch.t) :
  _calculate_experience_match resume_experience job_data = inr m ->
  (ExperienceMatch.score m = 0%Z <-> resume_experience = [])
  /\ (resume_experience <> [] -> (32 <= ExperienceMatch.score m <= 100)%Z).
Proof.
  unfold _calculate_experience_match.
  destruct (truthy resume_experience) eqn:Ht; cbn [negb].
  - apply truthy_true in Ht.
    destruct (years_score _ _) as [e | ys] eqn:Hy; [discriminate |].
    intros H. injection H as <-. cbn [ExperienceMatch.score].
    apply years_score_range in Hy.
    pose proof (level_alignment_range
                  (_determine_experience_level
                     (fold_left Qplus (map exp_duration resume_experience) 0))
                  (_extract_required_level (lower (job_title job_data))
                     (lower (job_description job_data)))) as Hl.
    pose proof (domain_match_range resume_experience job_data) as Hd.
    match goal with
    | |- context [round ?x] => assert (Hb : (32 <= round x <= 100)%Z)
    end.
    { apply round_bounds. change (inject_Z 32) with 32.
      change (inject_Z 100) with 100. lra. }
    split; [split; [lia | congruence] | intros _; exact Hb].
  - apply truthy_false in Ht. intros H. injection H as <-. cbn.
    split; [split; [intros _; exact Ht | reflexivity] | congruence].
Qed.

Lemma experience_score_zero_only_without_entries_witness :
  exists m,
    _calculate_experience_match (resume_experience sample_resume) sample_job = inr m
    /\ (32 <= ExperienceMatch.score m <= 100)%Z.
Proof.
  eexists. split; [vm_compute; reflexivity |].
  refine (proj2 (experience_score_zero_only_without_entries
                   (resume_experience sample_resume) sample_job _ _) _);
    [vm_compute; reflexivity | discriminate].
Defined.

Section YearsScore.

(** The four branches of the years score. *)
Lemma years_score_branches (total_years : Q) (required_years : N) (y : Q) :
  years_score total_years required_years = inr y ->
  let r := inject_Z (Z.of_N required_years) in
  (r <= total_years /\ y = 100)
  \/ (total_years < r /\ r * 0.8 <= total_years /\ y = 80)
  \/ (total_years < r * 0.8 /\ r * 0.6 <= total_years /\ y = 60)
  \/ (total_years < r * 0.6 /\ 0 < r /\ total_years / r < 0.6
      /\ y = Qmax 20 (total_years / r * 60)).
Proof.
  intros H. cbv zeta. unfold years_score in H.
  set (r := inject_Z (Z.of_N required_years)) in *.
  case_if_in H; [injection H as <-; apply Qle_bool_true in E; auto |].
  apply Qle_bool_false in E.
  case_if_in H; [injection H as <-; apply Qle_bool_true in E0; auto 6 |].
  apply Qle_bool_false in E0.
  case_if_in H; [injection H as <-; apply Qle_bool_true in E1; auto 8 |].
  apply Qle_bool_false in E1.
  case_if_in H; [discriminate |]. injection H as <-.
  apply inject_N_pos in E2. fold r in E2.
  right. right. right. repeat split; try assumption.
  apply Qlt_shift_div_r; [exact E2 | lra].
Qed.

End YearsScore.

(** X9.  For one posting, more years never give a lower years score. *)
Theorem years_score_is_monotone (years1 years2 : Q) (required_years : N) (y1 y2 : Q) :
  years_score years1 required_years = inr y1 ->
  years_score years2 required_years = inr y2 ->
  years1 <= years2 ->
  y1 <= y2.
Proof.
  intros H1 H2 Hle.
  apply years_score_branches in H1, H2. cbv zeta in H1, H2.
  revert H1 H2. generalize (inject_Z (Z.of_N required_years)). intros r H1 H2.
  assert (Hdiv : 0 < r -> years1 / r <= years2 / r).
  { intros Hr. apply Qmult_le_compat_r; [exact Hle |].
    apply Qlt_le_weak, Qinv_lt_0_compat, Hr. }
  destruct H1 as [(? & ->) | [(? & ? & ->) | [(? & ? & ->) | (? & Hr & Hq1 & ->)]]];
    destruct H2 as [(? & ->) | [(? & ? & ->) | [(? & ? & ->) | (? & Hr' & Hq2 & ->)]]];
    try lra;
    try (specialize (Hdiv Hr); revert Hq1 Hdiv);
    try revert Hq2;
    generalize (years1 / r); generalize (years2 / r); intros; split_minmax; lra.
Qed.

Lemma years_score_is_monotone_witness :
  years_score 4 5 = inr 80 /\ years_score 6 5 = inr 100 /\ 80 <= 100.
Proof.
  assert (H1 : years_score 4 5 = inr 80) by (vm_compute; reflexivity).
  assert (H2 : years_score 6 5 = inr 100) by (vm_compute; reflexivity).
  refine (conj H1 (conj H2 (years_score_is_monotone 4 6 5 80 100 H1 H2 _))).
  vm_compute. discriminate.
Defined.

(** X10.  The gap analysis is "fully met" exactly when the years
    suffice and the levels agree; otherwise it is a non-empty list of
    gaps, which names a shortfall of years exactly when the years fall
    short, the shortfall being positive.  "Experience requirements met"
    is never produced. *)
Theorem gap_analysis_cases (total_years : Q) (required_years : N)
    (resume_level required_level : string) :
  let required := inject_Z (Z.of_N required_years) in
  let gap := _generate_experience_gap_analysis
               total_years required_years resume_level required_level in
  gap <> GapMet
  /\ (gap = GapFullyMet <-> required <= total_years /\ resume_level = required_level)
  /\ (forall gaps,
         gap = GapJoined gaps ->
         gaps <> []
         /\ (forall g, In (NeedYears g) gaps -> 0 < g /\ g = required - total_years)
         /\ ((exists g, In (NeedYears g) gaps) <-> total_years < required)
         /\ (In (LevelGap resume_level required_level) gaps
             <-> resume_level <> required_level)).
Proof.
  cbv zeta. unfold _generate_experience_gap_analysis, Qltb.
  destruct (Qle_bool (inject_Z (Z.of_N required_years)) total_years) eqn:Ey;
    [apply Qle_bool_true in Ey | apply Qle_bool_false in Ey];
    destruct (String.eqb resume_level required_level) eqn:El;
    [apply String.eqb_eq in El | apply String.eqb_neq in El
    | apply String.eqb_eq in El | apply String.eqb_neq in El];
    cbn [andb negb app truthy].
  - split; [discriminate |]. split; [tauto |]. intros gaps H. discriminate.
  - split; [discriminate |]. split; [split; [discriminate | tauto] |].
    intros gaps H. injection H as <-.
    split; [discriminate |]. split; [intros g [Hg | []]; discriminate |].
    split; [split; [intros (g & [Hg | []]); discriminate | intros; lra] |].
    split; [intros _; exact El | intros _; left; reflexivity].
  - split; [discriminate |]. split; [split; [discriminate | intros [? _]; lra] |].
    intros gaps H. injection H as <-.
    split; [discriminate |].
    split; [intros g [Hg | []]; injection Hg as <-; split; [lra | reflexivity] |].
    split; [split; [intros _; exact Ey | intros _; eexists; left; reflexivity] |].
    split; [intros [Hg | []]; discriminate | intros Hne; contradiction].
  - split; [discriminate |]. split; [split; [discriminate | intros [? _]; lra] |].
    intros gaps H. injection H as <-.
    split; [discriminate |].
    split; [intros g [Hg | [Hg | []]]; [injection Hg as <-; split; [lra | reflexivity]
                                        | discriminate] |].
    split; [split; [intros _; exact Ey | intros _; eexists; left; reflexivity] |].
    split; [intros _; exact El | intros _; right; left; reflexivity].
Qed.

(** ** Further properties of the domain score *)

Section Domain.

Lemma domain_match_value (resume_experience : list ExperienceEntry) (job_data : JobData) :
  let job_industries :=
    _extract_industry_keywords
      (lower (job_company job_data) +:+ " " +:+ lower (job_description job_data)) in
  let resume_industries :=
    flat_map (fun exp => _extract_industry_keywords
                           (lower (exp_company exp) +:+ " " +:+ lower (exp_description exp)))
      resume_experience in
  _calculate_domain_match resume_experience job_data
  = if negb (truthy job_industries) then 70
    else if existsb (fun i => mem i resume_industries) job_industries then 100
         else 50.
Proof. reflexivity. Qed.

End Domain.

(** X11.  The domain score is 70 exactly when the posting names no
    industry; 100 exactly when the posting and some experience entry
    share an industry; and another experience entry never lowers it. *)
Theorem domain_score_cases (resume_experience more : list ExperienceEntry)
    (job_data : JobData) :
  let industries_of (company description : string) :=
    _extract_industry_keywords (lower company +:+ " " +:+ lower description) in
  let job_industries := industries_of (job_company job_data) (job_description job_data) in
  (_calculate_domain_match resume_experience job_data = 70 <-> job_industries = [])
  /\ (_calculate_domain_match resume_experience job_data = 100
      <-> exists industry entry,
            In industry job_industries
            /\ In entry resume_experience
            /\ In industry (industries_of (exp_company entry) (exp_description entry)))
  /\ _calculate_domain_match resume_experience job_data
     <= _calculate_domain_match (resume_experience ++ more) job_data.
Proof.
  cbv zeta. rewrite !domain_match_value. cbv zeta.
  set (job_industries :=
         _extract_industry_keywords
           (lower (job_company job_data) +:+ " " +:+ lower (job_description job_data))).
  set (of_entry := fun exp : ExperienceEntry =>
         _extract_industry_keywords
           (lower (exp_company exp) +:+ " " +:+ lower (exp_description exp))).
  assert (Hex : forall entries,
             existsb (fun i => mem i (flat_map of_entry entries)) job_industries = true
             <-> exists industry entry,
                   In industry job_industries /\ In entry entries
                   /\ In industry (of_entry entry)).
  { intros entries. rewrite existsb_exists. split.
    - intros (i & Hi & Hm). apply mem_In, in_flat_map in Hm as (entry & He & Hie).
      exists i, entry. auto.
    - intros (i & entry & Hi & He & Hie). exists i. split; [exact Hi |].
      apply mem_In, in_flat_map. exists entry. auto. }
  destruct (truthy job_industries) eqn:Ht; cbn [negb].
  - apply truthy_true in Ht.
    destruct (existsb _ job_industries) eqn:E1.
    + split; [split; [discriminate | contradiction] |].
      split; [split; [intros _; apply Hex, E1 | reflexivity] |].
      assert (existsb (fun i => mem i (flat_map of_entry (resume_experience ++ more)))
                job_industries = true) as ->; [| apply Qle_refl].
      apply Hex. apply Hex in E1 as (i & entry & Hi & He & Hie).
      exists i, entry. rewrite in_app_iff. auto.
    + split; [split; [discriminate | contradiction] |].
      split; [split; [discriminate |] |].
      * intros H. apply Hex in H. congruence.
      * match goal with |- context [if ?b then _ else _] => destruct b end; lra.
  - apply truthy_false in Ht.
    split; [split; [intros _; exact Ht | reflexivity] |].
    split; [split; [discriminate |] | apply Qle_refl].
    intros (i & _ & Hi & _). rewrite Ht in Hi. destruct Hi.
Qed.

(** ** The pattern search for the required years *)

Section PatternSearch.










Context {R : Type}.




End PatternSearch.

Section RequiredYears.






End RequiredYears.



(** ** Further properties of the education matcher *)

Section Degrees.

Lemma degree_found_true (degree_level : string) (education : list EducationEntry)
    (entry : EducationEntry) :
  In entry education ->
  contains degree_level (lower (edu_degree entry)) = true ->
  degree_found degree_level education = true.
Proof.
  intros Hin Hc. unfold degree_found. apply existsb_exists.
  exists entry. split; [exact Hin |]. rewrite Hc. reflexivity.
Qed.

Lemma first_degree_cases (levels : list string) (education : list EducationEntry) :
  first_degree levels education = "bachelor" \/ In (first_degree levels education) levels.
Proof.
  induction levels as [| level levels IH]; cbn [first_degree]; [left; reflexivity |].
  destruct (degree_found level education); [right; left; reflexivity |].
  destruct IH as [IH | IH]; [left; exact IH | right; right; exact IH].
Qed.

Lemma highest_degree_cases (education : list EducationEntry) :
  In (_get_highest_degree education) degree_hierarchy.
Proof.
  unfold _get_highest_degree.
  destruct (first_degree_cases degree_hierarchy education) as [-> | H];
    [cbn; auto | exact H].
Qed.

Lemma required_degree_cases (job_description : string) (job_requirements : list string) :
  In (_extract_required_degree job_description job_requirements)
    ["phd"; "master"; "bachelor"].
Proof.
  unfold _extract_required_degree.
  repeat match goal with |- context [if ?b then _ else _] => destruct b end;
    cbn; auto.
Qed.

End Degrees.

(** X13.  The education score takes one of six values: 50, 57, 70, 78,
    90 or 100. *)
Theorem education_score_values (resume_education : list EducationEntry)
    (job_data : JobData) :
  In (EducationMatch.score (_calculate_education_match resume_education job_data))
    [50; 57; 70; 78; 90; 100]%Z.
Proof.
  unfold _calculate_education_match.
  destruct (truthy resume_education); cbn [negb]; [| cbn; auto].
  destruct (requires_degree _ _); cbn [negb]; [| cbn; auto 10].
  cbn [EducationMatch.score].
  pose proof (highest_degree_cases resume_education) as Hh.
  pose proof (required_degree_cases (lower (job_description job_data))
                (job_requirements job_data)) as Hr.
  revert Hh Hr.
  generalize (_get_highest_degree resume_education).
  generalize (_extract_required_degree (lower (job_description job_data))
                (job_requirements job_data)).
  intros required highest Hh Hr. cbn [In degree_hierarchy] in Hh, Hr.
  destruct Hh as [<- | [<- | [<- | [<- | [<- | []]]]]];
    destruct Hr as [<- | [<- | [<- | []]]];
    vm_compute; auto 10.
Qed.

(** X14.  A candidate one of whose degrees mentions "phd" or
    "doctorate" has "phd" as highest degree, wherever the entry stands
    in the list, and scores 100 on education against every posting. *)
Theorem doctorate_scores_full (resume_education : list EducationEntry)
    (entry : EducationEntry) :
  In entry resume_education ->
  contains "phd" (lower (edu_degree entry)) = true
  \/ contains "doctorate" (lower (edu_degree entry)) = true ->
  _get_highest_degree resume_education = "phd"
  /\ forall job_data,
       EducationMatch.score (_calculate_education_match resume_education job_data)
       = 100%Z.
Proof.
  intros Hin Hdoc.
  assert (Hhigh : _get_highest_degree resume_education = "phd").
  { unfold _get_highest_degree, degree_hierarchy. cbn [first_degree].
    assert (degree_found "phd" resume_education = true) as ->; [| reflexivity].
    unfold degree_found. apply existsb_exists. exists entry. split; [exact Hin |].
    destruct Hdoc as [-> | ->]; [reflexivity | apply orb_true_r]. }
  split; [exact Hhigh |].
  intros job_data. unfold _calculate_education_match.
  assert (truthy resume_education = true) as ->
    by (apply truthy_true; intros ->; destruct Hin).
  cbn [negb]. destruct (requires_degree _ _); cbn [negb]; [| reflexivity].
  rewrite Hhigh. cbn [EducationMatch.score].
  pose proof (required_degree_cases (lower (job_description job_data))
                (job_requirements job_data)) as Hr.
  revert Hr.
  generalize (_extract_required_degree (lower (job_description job_data))
                (job_requirements job_data)).
  intros required Hr. cbn [In] in Hr.
  destruct Hr as [<- | [<- | [<- | []]]]; vm_compute; reflexivity.
Qed.

Lemma doctorate_scores_full_witness :
  _get_highest_degree [degree_of "BSc Physics"; degree_of "Doctorate in Physics"] = "phd"
  /\ EducationMatch.score
       (_calculate_education_match
          [degree_of "BSc Physics"; degree_of "Doctorate in Physics"] sample_job)
     = 100%Z.
Proof.
  destruct (doctorate_scores_full
              [degree_of "BSc Physics"; degree_of "Doctorate in Physics"]
              (degree_of "Doctorate in Physics")) as [Hhigh Hscore].
  - right. left. reflexivity.
  - right. reflexivity.
  - split; [exact Hhigh | apply Hscore].
Defined.

(** ** Further properties of the aggregator *)

Section Advice.

Variable tfidf : string -> string -> option (list string * Q).

(** The advisory fields of a result that is not the fallback. *)
Lemma calculate_match_try_advice (vectorizer : TfidfVectorizer)
    (resume_data : ResumeData) (job_data : JobData) (result : MatchResult) :
  fst (calculate_match_try tfidf vectorizer resume_data job_data) = inr result ->
  exists b,
    breakdown result = Some b
    /\ skills_match b
       = _calculate_skills_match (resume_skills resume_data)
           (job_requirements job_data ++ job_skills job_data)
    /\ recommendations result
       = _generate_recommendations (skills_match b) (experience_match b)
    /\ experience_gap result = ExperienceMatch.gap_analysis (experience_match b)
    /\ missing_skills result = SkillsMatch.missing_skills (skills_match b).
Proof.
  unfold calculate_match_try.
  destruct (_calculate_experience_match _ _) as [e | experience]; [discriminate |].
  destruct (_calculate_semantic_match _ _ _ _) as [semantic vectorizer'].
  cbn [fst]. intros H. injection H as <-.
  eexists. cbn. repeat split; reflexivity.
Qed.

Lemma score_without_skills (resume_skills job_requirements : list string) :
  resume_skills = [] \/ job_requirements = [] ->
  SkillsMatch.score (_calculate_skills_match resume_skills job_requirements) = 0.
Proof.
  intros H. unfold _calculate_skills_match.
  assert (negb (truthy resume_skills) || negb (truthy job_requirements) = true) as ->.
  { destruct H as [-> | ->]; [reflexivity | apply orb_true_r]. }
  reflexivity.
Qed.

Lemma nothing_missing_all_matching (resume_skills job_requirements : list string) :
  resume_skills <> [] -> job_requirements <> [] ->
  SkillsMatch.missing_skills (_calculate_skills_match resume_skills job_requirements) = [] ->
  SkillsMatch.matching_skills (_calculate_skills_match resume_skills job_requirements)
  = job_requirements.
Proof.
  intros Hr Hj. unfold _calculate_skills_match.
  apply truthy_true in Hr, Hj. rewrite Hr, Hj. cbn [negb orb].
  intros Hmiss.
  rewrite classify_all_match.
  - reflexivity.
  - intros r Hin.
    destruct (requirement_matches _ r) eqn:E; [reflexivity |].
    rewrite classify_requirements_filter in Hmiss.
    cbn [SkillsMatch.missing_skills] in Hmiss.
    assert (Hr' : In r (List.filter
                          (fun r => negb (requirement_matches
                                            (map (fun skill => strip (lower skill))
                                               resume_skills) r))
                          job_requirements)).
    { apply List.filter_In. split; [exact Hin |]. rewrite E. reflexivity. }
    rewrite Hmiss in Hr'. destruct Hr'.
Qed.

End Advice.

(** X15.  With no resume skill, or with a posting that lists neither
    requirement nor skill, the score is at most 60 and the
    recommendation is [maybe] or [not_recommended]. *)
Theorem without_skills_never_recommended
    (tfidf : string -> string -> option (list string * Q))
    (vectorizer : TfidfVectorizer) (resume_data : ResumeData) (job_data : JobData) :
  cosine_in_range tfidf ->
  resume_skills resume_data = [] \/ job_requirements job_data ++ job_skills job_data = [] ->
  let result := fst (calculate_match tfidf vectorizer resume_data job_data) in
  (score result <= 60)%Z
  /\ (recommendation result = maybe \/ recommendation result = not_recommended).
Proof.
  intros Hrange Hnone result.
  destruct (calculate_match_cases tfidf vectorizer resume_data job_data)
    as [(e & _ & Hfb) | Hok]; fold result in Hfb || fold result in Hok.
  { rewrite Hfb. cbn. split; [lia | left; reflexivity]. }
  destruct (calculate_match_try_ok _ _ _ _ _ Hok)
    as (b & Hb & Hs & He & Hd & Hm & Hscore & Hrec & _).
  assert (Hfinal : 0 <= final_score b <= 60).
  { unfold final_score. rewrite Hs, (score_without_skills _ _ Hnone).
    pose proof (experience_score_range _ _ _ He) as [He1 He2].
    pose proof (semantic_score_range tfidf Hrange vectorizer resume_data job_data)
      as [Hm1 Hm2].
    pose proof (education_score_range (resume_education resume_data) job_data)
      as [Hd1 Hd2].
    rewrite <- Hm in Hm1, Hm2. rewrite <- Hd in Hd1, Hd2.
    apply Zle_inject in He1, He2, Hm1, Hm2, Hd1, Hd2.
    change (inject_Z 0) with 0 in *. change (inject_Z 100) with 100 in *.
    change (inject_Z 50) with 50 in *. lra. }
  split.
  - rewrite Hscore. apply (round_bounds 0 60). exact Hfinal.
  - pose proof (get_recommendation_in_band (final_score b) (skills_match b)
                  (experience_match b)) as Hband.
    rewrite <- Hrec in Hband.
    destruct (recommendation result); cbn [in_band] in Hband; auto; lra.
Qed.

Lemma without_skills_never_recommended_witness :
  (score (fst (calculate_match shared_terms unfitted unskilled_resume sample_job))
   <= 60)%Z
  /\ (recommendation (fst (calculate_match shared_terms unfitted unskilled_resume sample_job))
      = maybe
      \/ recommendation (fst (calculate_match shared_terms unfitted
                                unskilled_resume sample_job))
         = not_recommended).
Proof.
  apply (without_skills_never_recommended shared_terms unfitted
           unskilled_resume sample_job shared_terms_in_range).
  left. reflexivity.
Defined.



(** X17.  On a run that does not fall back: when the resume lists no
    skill or the posting no item, the advice to expand the technical
    skill set is always given; when nothing is missing, the only advice
    there can be is to gain experience, given exactly when the
    experience score is below 70. *)
Theorem advice_by_missing_skills
    (tfidf : string -> string -> option (list string * Q))
    (vectorizer : TfidfVectorizer) (resume_data : ResumeData) (job_data : JobData)
    (result : MatchResult) :
  fst (calculate_match_try tfidf vectorizer resume_data job_data) = inr result ->
  (resume_skills resume_data = []
   \/ job_requirements job_data ++ job_skills job_data = [] ->
   In "Expand technical skill set to better match job requirements"
     (recommendations result))
  /\ (resume_skills resume_data <> [] ->
      job_requirements job_data ++ job_skills job_data <> [] ->
      missing_skills result = [] ->
      exists b,
        breakdown result = Some b
        /\ recommendations result
           = if (ExperienceMatch.score (experience_match b) <? 70)%Z
             then ["Gain more relevant work experience in the field"]
             else []).
Proof.
  intros Hok.
  destruct (calculate_match_try_advice _ _ _ _ _ Hok)
    as (b & Hb & Hs & Hrecs & _ & Hmiss).
  split.
  - intros Hnone. rewrite Hrecs. unfold _generate_recommendations.
    rewrite Hs, (score_without_skills _ _ Hnone).
    rewrite !in_app_iff. right. right. left. reflexivity.
  - intros Hr Hj Hnil. exists b. split; [exact Hb |].
    rewrite Hrecs. unfold _generate_recommendations.
    rewrite <- Hmiss, Hnil. cbn [truthy app].
    rewrite Hmiss, Hs in Hnil.
    pose proof (score_when_nothing_missing _ _ Hr Hj
                  (nothing_missing_all_matching _ _ Hr Hj Hnil)) as Hfull.
    rewrite <- Hs in Hfull.
    assert (Qltb (SkillsMatch.score (skills_match b)) 60 = false) as ->.
    { unfold Qltb. apply negb_false_iff, Qle_bool_true. rewrite Hfull. lra. }
    rewrite app_nil_r. reflexivity.
Qed.

Lemma advice_by_missing_skills_witness :
  In "Expand technical skill set to better match job requirements"
    (recommendations (fst (calculate_match shared_terms unfitted
                             unskilled_resume sample_job)))
  /\ exists b,
       breakdown (fst (calculate_match shared_terms unfitted strong_resume python_job))
       = Some b
       /\ recommendations (fst (calculate_match shared_terms unfitted
                                  strong_resume python_job))
          = if (ExperienceMatch.score (experience_match b) <? 70)%Z
            then ["Gain more relevant work experience in the field"]
            else [].
Proof.
  split.
  - apply (proj1 (advice_by_missing_skills shared_terms unfitted unskilled_resume
                    sample_job _ ltac:(vm_compute; reflexivity))).
    left. reflexivity.
  - apply (proj2 (advice_by_missing_skills shared_terms unfitted strong_resume
                    python_job _ ltac:(vm_compute; reflexivity)));
      [discriminate | discriminate | vm_compute; reflexivity].
Defined.

(** ** Further properties of the semantic matcher and of the levels *)

(** X18.  Company names, durations and institutions are no part of
    the compared texts: without them the resume text, the job text and
    the whole semantic match, vectorizer included, are the same. *)
Theorem semantic_match_ignores_names
    (tfidf : string -> string -> option (list string * Q))
    (vectorizer : TfidfVectorizer) (resume_data : ResumeData) (job_data : JobData) :
  _prepare_resume_text (without_names resume_data) = _prepare_resume_text resume_data
  /\ _prepare_job_text (without_company job_data) = _prepare_job_text job_data
  /\ _calculate_semantic_match tfidf vectorizer
       (without_names resume_data) (without_company job_data)
     = _calculate_semantic_match tfidf vectorizer resume_data job_data.
Proof.
  assert (Hr : _prepare_resume_text (without_names resume_data)
               = _prepare_resume_text resume_data).
  { unfold _prepare_resume_text, without_names.
    cbn [resume_skills resume_experience resume_education resume_summary].
    rewrite !flat_map_concat_map, !List.map_map. reflexivity. }
  assert (Hj : _prepare_job_text (without_company job_data) = _prepare_job_text job_data)
    by reflexivity.
  split; [exact Hr | split; [exact Hj |]].
  unfold _calculate_semantic_match. rewrite Hr, Hj. reflexivity.
Qed.

(** X19.  The level alignment depends on the distance between the two
    levels only, not on its direction: a candidate above the required
    level is rated like one as far below it; and it is 100 exactly when
    the two levels have the same rank. *)
Theorem level_alignment_is_symmetric (level1 level2 : string) :
  _calculate_level_alignment level1 level2 = _calculate_level_alignment level2 level1
  /\ (_calculate_level_alignment level1 level2 = 100
      <-> dict_get experience_levels level1 2%Z = dict_get experience_levels level2 2%Z).
Proof.
  unfold _calculate_level_alignment.
  generalize (dict_get experience_levels level1 2%Z),
    (dict_get experience_levels level2 2%Z).
  intros a b.
  replace (Z.abs (b - a)) with (Z.abs (a - b)) by lia.
  rewrite (Z.eqb_sym b a). split; [reflexivity |].
  destruct (a =? b)%Z eqn:E.
  - apply Z.eqb_eq in E. split; [intros _; exact E | reflexivity].
  - apply Z.eqb_neq in E. split; [| contradiction].
    repeat match goal with |- context [if ?c then _ else _] => destruct c end;
      discriminate.
Qed.

Section StatedYears.





Context {R : Type}.












End StatedYears.

Section YearsPhrase.









End YearsPhrase.



Section SeniorTitles.



End SeniorTitles.



(** ** When the whole result is the fallback *)


(** X23.  Every result of [calculate_match] either is the fallback or
    carries two skill lists that, letter case ignored, together are the
    requirements and skills of the posting and do not overlap. *)
Theorem result_lists_partition_unless_fallback
    (tfidf : string -> string -> option (list string * Q))
    (vectorizer : TfidfVectorizer) (resume_data : ResumeData) (job_data : JobData) :
  let result := fst (calculate_match tfidf vectorizer resume_data job_data) in
  result = fallback
  \/ (ci_set (matching_skills result) ∪ ci_set (missing_skills result)
      = ci_set (job_requirements job_data) ∪ ci_set (job_skills job_data)
      /\ ci_set (matching_skills result) ## ci_set (missing_skills result)).
Proof.
  cbv zeta.
  destruct (calculate_match_cases tfidf vectorizer resume_data job_data)
    as [(e & _ & Hfb) | Hok].
  - left. exact Hfb.
  - right. eapply match_result_skill_lists. exact Hok.
Qed.
